(** * channeltalk-alert: the timer lifecycle of [main.py]

    A shallow embedding of [src/main.py] (a FastAPI service that arms,
    cancels and fires per-conversation alert timers through QStash and an
    Upstash Redis registry) and the properties of its specification.

    Modelling conventions.
    - JSON values are the inductive [json]; a Python [dict] is an association
      list read by its first binding.  Numbers are integers: float-valued
      fields are outside the model.
    - A Python [str] is the [string] of its UTF-8 bytes; slicing counts code
      points ([take_chars]).
    - The handlers run in the monad [M]: a reader of the request's
      environment [Env] (clock, answers of QStash and of the Slack sink), a
      state [World] (the Redis store and the chronological log of every
      collaborator call) and Python exceptions.  The state survives an
      exception, as the collaborators' side effects do.
    - The Redis client is reliable (its calls do not raise); QStash calls and
      the sink may raise, as the environment decides.  Where a statement is
      about which requests fail, the inbound handlers are given again over a
      registry client whose calls may raise ([fallible_channel_webhook]).
      Time does not flow inside a request; the expiry of a registry entry is
      a step of its own between requests ([Expire]). *)

From Stdlib Require Import ZArith Ascii String DecimalString.
From stdpp Require Import gmap strings list.

Set Warnings "-register-all".

Local Open Scope Z_scope.
Local Open Scope string_scope.
Local Open Scope list_scope.

(** ** JSON values and the Python operations the handlers use on them *)

Inductive json : Type :=
| JNull
| JBool (b : bool)
| JInt (n : Z)
| JStr (s : string)
| JArr (items : list json)
| JObj (fields : list (string * json)).

(** [d[k]] when present: the first binding of [k]. *)
Fixpoint assoc (k : string) (fields : list (string * json)) : option json :=
  match fields with
  | [] => None
  | (k', v) :: rest => if String.eqb k k' then Some v else assoc k rest
  end.

(** [d.get(k, dflt)] on a dict. *)
Definition get_or (dflt : json) (fields : list (string * json)) (k : string) : json :=
  match assoc k fields with
  | Some v => v
  | None => dflt
  end.

(** Python truthiness, as tested by [if x:] and [x or y]. *)
Definition truthy (v : json) : bool :=
  match v with
  | JNull => false
  | JBool b => b
  | JInt n => negb (Z.eqb n 0)
  | JStr s => negb (String.eqb s "")
  | JArr items => match items with [] => false | _ => true end
  | JObj fields => match fields with [] => false | _ => true end
  end.

(** [x or y]. *)
Definition py_or (x y : json) : json := if truthy x then x else y.

(** [x is None]. *)
Definition is_none (v : json) : bool :=
  match v with JNull => true | _ => false end.

(** [x == s] for a [str] constant [s]: only an equal [str] compares equal. *)
Definition eq_str (v : json) (s : string) : bool :=
  match v with JStr s' => String.eqb s' s | _ => false end.

(** A byte that continues a UTF-8 sequence (binary 10xxxxxx). *)
Definition is_continuation (c : Ascii.ascii) : bool :=
  match c with
  | Ascii _ _ _ _ _ _ false true => true
  | _ => false
  end.

(** The first [n] code points of a UTF-8 string: [s[:n]] on a [str]. *)
Fixpoint take_chars (n : nat) (s : string) : string :=
  match s with
  | EmptyString => EmptyString
  | String c rest =>
      if is_continuation c then String c (take_chars n rest)
      else match n with
           | O => EmptyString
           | S n' => String c (take_chars n' rest)
           end
  end.

Definition newline : string := String (Ascii.ascii_of_nat 10) EmptyString.

(** ** Configuration, environment and world *)

(** [datetime.time]: compared as the tuple (hour, minute, second, microsecond). *)
Record time := mk_time { hour : Z; minute : Z; second : Z; microsecond : Z }.

Definition time_le (a b : time) : bool :=
  if Z.ltb (hour a) (hour b) then true else
  if Z.ltb (hour b) (hour a) then false else
  if Z.ltb (minute a) (minute b) then true else
  if Z.ltb (minute b) (minute a) then false else
  if Z.ltb (second a) (second b) then true else
  if Z.ltb (second b) (second a) then false else
  Z.leb (microsecond a) (microsecond b).

(** The module-level constants read from the process environment. *)
Record Config := {
  SLACK_WEBHOOK_URL : string;
  MY_MEMBER_ID : string;
  OPERATION_START : time;
  OPERATION_END : time;
  BASE_URL : string
}.

(** Every call made on a collaborator, in the order it is made. *)
Inductive call : Type :=
| RedisGet (key : string)
| RedisDelete (key : string)
| RedisSet (key value : string) (ex : Z)
| QCancel (msg_id : string)
| QPublish (url : string) (body : json) (delay : Z)
| QVerify (body signature url : string)
| SlackPost (url text : string)
| RedisExpired (key : string).   (* not a call: the store drops an expired key *)

(** What the outside answers during one request. *)
Record Env := {
  now : time;                                         (* datetime.now(TZ).time() *)
  cancel_raises : string -> bool;                     (* qstash.message.cancel *)
  publish_result : string -> json -> Z -> option string;
                                                      (* message_id, None: raises *)
  verify_ok : string -> string -> string -> bool;     (* receiver.verify passes *)
  post_raises : string -> string -> bool              (* httpx transport error *)
}.

(** The Redis store (value and the [ex] it was set with) and the call log. *)
Record World := {
  redis : gmap string (string * Z);
  calls : list call
}.

Inductive exn : Type :=
| AttributeError
| TypeError
| JSONDecodeError
| UpstreamError
| HTTPException (status_code : Z) (detail : string).

Inductive result (A : Type) : Type :=
| Ok (a : A)
| Raise (e : exn).
Arguments Ok {A} a.
Arguments Raise {A} e.

Definition M (A : Type) : Type := Env -> World -> World * result A.

Definition ret {A} (a : A) : M A := fun _ w => (w, Ok a).

Definition raise {A} (e : exn) : M A := fun _ w => (w, Raise e).

Definition bind {A B} (m : M A) (k : A -> M B) : M B :=
  fun env w =>
    match m env w with
    | (w', Ok a) => k a env w'
    | (w', Raise e) => (w', Raise e)
    end.

(** [try: m  except Exception: h]. *)
Definition try_except {A} (m : M A) (h : M A) : M A :=
  fun env w =>
    match m env w with
    | (w', Ok a) => (w', Ok a)
    | (w', Raise _) => h env w'
    end.

Declare Scope py_scope.
Delimit Scope py_scope with py.
Notation "x <- c ;; k" := (bind c (fun x => k))
  (at level 100, c at next level, right associativity) : py_scope.
Notation "c ;;; k" := (bind c (fun _ => k))
  (at level 100, right associativity) : py_scope.
Local Open Scope py_scope.

Definition log (c : call) (w : World) : World :=
  {| redis := redis w; calls := calls w ++ [c] |}.

(** [obj.get(k, dflt)]: anything but a dict has no [get]. *)
Definition py_get (obj : json) (k : string) (dflt : json) : M json :=
  match obj with
  | JObj fields => ret (get_or dflt fields k)
  | _ => raise AttributeError
  end.

(** [v[:n]]: a [str] or a list is sliced, anything else is not subscriptable
    (or, for a dict, not indexable by a slice): [None] stands for the
    [TypeError]. *)
Definition slice_to (n : nat) (v : json) : option json :=
  match v with
  | JStr s => Some (JStr (take_chars n s))
  | JArr items => Some (JArr (take n items))
  | _ => None
  end.

Definition py_slice_to (n : nat) (v : json) : M json :=
  match slice_to n v with
  | Some r => ret r
  | None => raise TypeError
  end.

(** *** The Redis client *)

Definition redis_get (key : string) : M (option string) :=
  fun _ w => (log (RedisGet key) w, Ok (fst <$> redis w !! key)).

Definition redis_delete (key : string) : M unit :=
  fun _ w =>
    ({| redis := delete key (redis w); calls := calls w ++ [RedisDelete key] |},
     Ok tt).

Definition redis_set (key value : string) (ex : Z) : M unit :=
  fun _ w =>
    ({| redis := <[key := (value, ex)]> (redis w);
        calls := calls w ++ [RedisSet key value ex] |},
     Ok tt).

(** *** The QStash client *)

Definition qstash_message_cancel (msg_id : string) : M unit :=
  fun env w =>
    (log (QCancel msg_id) w,
     if cancel_raises env msg_id then Raise UpstreamError else Ok tt).

Definition qstash_message_publish_json (url : string) (body : json) (delay : Z)
  : M string :=
  fun env w =>
    (log (QPublish url body delay) w,
     match publish_result env url body delay with
     | Some message_id => Ok message_id
     | None => Raise UpstreamError
     end).

Definition qstash_receiver_verify (body signature url : string) : M unit :=
  fun env w =>
    (log (QVerify body signature url) w,
     if verify_ok env body signature url then Ok tt else Raise UpstreamError).

(** ** Sample configuration, environments and events *)

Module Sample.

Definition cfg : Config := {|
  SLACK_WEBHOOK_URL := "https://hooks.slack.example/services/T0";
  MY_MEMBER_ID := "member-7";
  OPERATION_START := mk_time 9 0 0 0;
  OPERATION_END := mk_time 18 0 0 0;
  BASE_URL := "https://alerts.example"
|}.

(** No sample holds a list or a dict where a string is formatted. *)
Definition repr_container (v : json) : string := "<container>".

Definition noon : time := mk_time 12 0 0 0.
Definition late_evening : time := mk_time 22 30 0 0.

(** Every collaborator answers; the schedule call answers [message_id]. *)
Definition env (t : time) (message_id : string) : Env := {|
  now := t;
  cancel_raises := fun _ => false;
  publish_result := fun _ _ _ => Some message_id;
  verify_ok := fun _ _ _ => true;
  post_raises := fun _ _ => false
|}.

Definition env_cancel_raises : Env := {|
  now := noon;
  cancel_raises := fun _ => true;
  publish_result := fun _ _ _ => Some "msg_2";
  verify_ok := fun _ _ _ => true;
  post_raises := fun _ _ => false
|}.

Definition env_publish_raises : Env := {|
  now := noon;
  cancel_raises := fun _ => false;
  publish_result := fun _ _ _ => None;
  verify_ok := fun _ _ _ => true;
  post_raises := fun _ _ => false
|}.

Definition env_bad_signature : Env := {|
  now := noon;
  cancel_raises := fun _ => false;
  publish_result := fun _ _ _ => Some "msg_1";
  verify_ok := fun _ _ _ => false;
  post_raises := fun _ _ => false
|}.

Definition env_sink_raises : Env := {|
  now := noon;
  cancel_raises := fun _ => false;
  publish_result := fun _ _ _ => Some "msg_1";
  verify_ok := fun _ _ _ => true;
  post_raises := fun _ _ => true
|}.

(** A message of a customer in the conversation described by [chat]. *)
Definition customer_event (chat : list (string * json)) : json :=
  JObj [("event", JObj [("type", JStr "chat_message_created")]);
        ("entity", JObj [("personType", JStr "user");
                         ("plainText", JStr "Where is my order?")]);
        ("chat", JObj chat);
        ("user", JObj [("name", JStr "Kim")])].

(** A message of a staff member. *)
Definition member_event (chat : list (string * json)) : json :=
  JObj [("event", JObj [("type", JStr "chat_message_created")]);
        ("entity", JObj [("personType", JStr "member");
                         ("plainText", JStr "On its way.")]);
        ("chat", JObj chat)].

Definition assigned_event (chat : list (string * json)) : json :=
  JObj [("event", JObj [("type", JStr "chat_assigned")]);
        ("chat", JObj chat)].

Definition unassigned_chat : list (string * json) :=
  [("id", JStr "c1"); ("name", JStr "Order 4471"); ("assignee", JNull)].

Definition my_chat : list (string * json) :=
  [("id", JStr "c1"); ("name", JStr "Order 4471");
   ("assignee", JObj [("id", JStr "member-7")])].

Definition colleague_chat : list (string * json) :=
  [("id", JStr "c1"); ("name", JStr "Order 4471");
   ("assignee", JObj [("id", JStr "member-9")])].

(** A world in which conversation c1 has a recorded timer. *)
Definition armed_world : World :=
  {| redis := {[ "timer:c1" := ("msg_1", 360) ]}; calls := [] |}.

(** The body QStash delivers for an alert, and a parser that knows it. *)
Definition alert_body : string := "{alert c1 unassigned}".
Definition unknown_body : string := "{alert c1 escalated}".

Definition alert_data (type : string) : list (string * json) :=
  [("type", JStr type); ("chat_id", JStr "c1");
   ("chat_title", JStr "Order 4471"); ("customer_name", JStr "Kim");
   ("msg_preview", JStr "Where is my order?")].

Definition json_loads (body : string) : option json :=
  if String.eqb body alert_body then Some (JObj (alert_data "unassigned"))
  else if String.eqb body unknown_body then Some (JObj (alert_data "escalated"))
  else None.

(** A window meant to run over midnight. *)
Definition overnight_cfg : Config := {|
  SLACK_WEBHOOK_URL := "https://hooks.slack.example/services/T0";
  MY_MEMBER_ID := "member-7";
  OPERATION_START := mk_time 22 0 0 0;
  OPERATION_END := mk_time 6 0 0 0;
  BASE_URL := "https://alerts.example"
|}.

(** A parser that knows one body. *)
Definition json_loads_of (known : string) (v : json) (body : string)
  : option json :=
  if String.eqb body known then Some v else None.

(** A customer message in an event that carries no chat object. *)
Definition chatless_event : list (string * json) :=
  [("event", JObj [("type", JStr "chat_message_created")]);
   ("entity", JObj [("personType", JStr "user");
                    ("plainText", JStr "Hello?")])].

(** A message posted by a bot. *)
Definition bot_event : list (string * json) :=
  [("event", JObj [("type", JStr "chat_message_created")]);
   ("entity", JObj [("personType", JStr "bot")]);
   ("chat", JObj [("id", JStr "c1")])].

(** A reassignment whose [user] field is a string: a value on a path the
    event does not take. *)
Definition assigned_with_odd_user : json :=
  JObj [("event", JObj [("type", JStr "chat_assigned")]);
        ("chat", JObj [("id", JStr "c1")]);
        ("user", JStr "bob")].

(** A reassignment whose [chat] field is a string. *)
Definition assigned_with_odd_chat : json :=
  JObj [("event", JObj [("type", JStr "chat_assigned")]);
        ("chat", JStr "c1")].

(** A registry whose reads raise. *)
Definition reads_raise (c : call) : bool :=
  match c with RedisGet _ => true | _ => false end.

End Sample.

(** *** The program *)

Section Program.

(** [str(v)] of a list or dict (Python's [repr] of containers) and
    [json.loads] are library code, taken as given. *)
Variable repr_container : json -> string.
Variable json_loads : string -> option json.
Variable cfg : Config.

(** [f"{v}"]. *)
Definition py_str (v : json) : string :=
  match v with
  | JNull => "None"
  | JBool true => "True"
  | JBool false => "False"
  | JInt n => NilZero.string_of_int (Z.to_int n)
  | JStr s => s
  | _ => repr_container v
  end.

Definition timer_key (chat_id : json) : string := "timer:" +:+ py_str chat_id.

(** [OPERATION_START <= now <= OPERATION_END]. *)
Definition operation_hours (env : Env) : bool :=
  time_le (OPERATION_START cfg) (now env) && time_le (now env) (OPERATION_END cfg).

Definition is_operation_hours : M bool :=
  fun env w => (w, Ok (operation_hours env)).

Definition send_slack (message : string) : M unit :=
  fun env w =>
    (log (SlackPost (SLACK_WEBHOOK_URL cfg) message) w,
     if post_raises env (SLACK_WEBHOOK_URL cfg) message
     then Raise UpstreamError else Ok tt).

Definition cancel_existing_timer (chat_id : json) : M unit :=
  msg_id <- redis_get (timer_key chat_id) ;;
  match msg_id with
  | Some id =>
      if negb (String.eqb id "") then
        try_except (qstash_message_cancel id) (ret tt) ;;;
        redis_delete (timer_key chat_id)
      else ret tt
  | None => ret tt
  end.

Definition schedule_timer (chat_id : json) (delay_seconds : Z)
    (alert_payload : json) : M unit :=
  cancel_existing_timer chat_id ;;;
  message_id <- qstash_message_publish_json
                  (BASE_URL cfg +:+ "/alert") alert_payload delay_seconds ;;
  redis_set (timer_key chat_id) message_id (delay_seconds + 60).

Definition alert_payload_of (type : string)
    (chat_id chat_title customer_name msg_preview : json) : json :=
  JObj [("type", JStr type);
        ("chat_id", chat_id);
        ("chat_title", chat_title);
        ("customer_name", customer_name);
        ("msg_preview", msg_preview)].

Definition handle_customer_message (payload : json) : M unit :=
  in_hours <- is_operation_hours ;;
  if negb in_hours then ret tt else
  chat <- py_get payload "chat" (JObj []) ;;
  message <- py_get payload "entity" (JObj []) ;;
  chat_id <- py_get chat "id" (JStr "unknown") ;;
  name <- py_get chat "name" JNull ;;
  let chat_title := py_or name chat_id in
  user <- py_get payload "user" (JObj []) ;;
  customer_name <- py_get user "name" (JStr "고객") ;;
  plain_text <- py_get message "plainText" (JStr "") ;;
  msg_preview <- py_slice_to 50 (py_or plain_text (JStr "")) ;;
  assignee <- py_get chat "assignee" JNull ;;
  if is_none assignee then
    schedule_timer chat_id (5 * 60)
      (alert_payload_of "unassigned" chat_id chat_title customer_name msg_preview)
  else
    assignee_id <- py_get assignee "id" JNull ;;
    if eq_str assignee_id (MY_MEMBER_ID cfg) then
      schedule_timer chat_id (3 * 60)
        (alert_payload_of "my_chat" chat_id chat_title customer_name msg_preview)
    else ret tt.

Definition ok_body : json := JObj [("ok", JBool true)].

Definition cancel_for_chat (payload : json) : M unit :=
  chat <- py_get payload "chat" (JObj []) ;;
  chat_id <- py_get chat "id" (JStr "") ;;
  if truthy chat_id then cancel_existing_timer chat_id else ret tt.

Definition channel_webhook (payload : json) : M json :=
  event <- py_get payload "event" (JObj []) ;;
  event_type <- py_get event "type" (JStr "") ;;
  (if eq_str event_type "chat_message_created" then
     entity <- py_get payload "entity" (JObj []) ;;
     sender_type <- py_get entity "personType" (JStr "") ;;
     if eq_str sender_type "user" then handle_customer_message payload
     else if eq_str sender_type "member" then cancel_for_chat payload
     else ret tt
   else if eq_str event_type "chat_assigned" then cancel_for_chat payload
   else ret tt) ;;;
  ret ok_body.

Definition unassigned_text (chat_title customer_name msg_preview : json) : string :=
  "🔴 *미배정 문의 미응답 알림*" +:+ newline +:+
  "> 채팅방: " +:+ py_str chat_title +:+ newline +:+
  "> 고객: " +:+ py_str customer_name +:+ newline +:+
  "> 마지막 메시지: " +:+ py_str msg_preview +:+ newline +:+
  "> ⏰ 5분째 미응답 중입니다!".

Definition my_chat_text (chat_title customer_name msg_preview : json) : string :=
  "🟡 *내 문의 미응답 알림*" +:+ newline +:+
  "> 채팅방: " +:+ py_str chat_title +:+ newline +:+
  "> 고객: " +:+ py_str customer_name +:+ newline +:+
  "> 마지막 메시지: " +:+ py_str msg_preview +:+ newline +:+
  "> ⏰ 3분째 미응답 중입니다!".

Definition receive_alert (body : string) (signature_header : option string)
  : M json :=
  let signature := default "" signature_header in
  try_except
    (qstash_receiver_verify body signature (BASE_URL cfg +:+ "/alert"))
    (raise (HTTPException 401 "Invalid signature")) ;;;
  data <- match json_loads body with
          | Some v => ret v
          | None => raise JSONDecodeError
          end ;;
  alert_type <- py_get data "type" JNull ;;
  chat_title <- py_get data "chat_title" (JStr "알 수 없음") ;;
  customer_name <- py_get data "customer_name" (JStr "고객") ;;
  msg_preview <- py_get data "msg_preview" (JStr "") ;;
  if eq_str alert_type "unassigned" then
    send_slack (unassigned_text chat_title customer_name msg_preview) ;;;
    ret ok_body
  else if eq_str alert_type "my_chat" then
    send_slack (my_chat_text chat_title customer_name msg_preview) ;;;
    ret ok_body
  else ret ok_body.

(** ** The two endpoints as the HTTP client sees them *)

(** FastAPI answers 200 with the returned body, the status of an
    [HTTPException], and 500 for any other exception. *)
Inductive response : Type :=
| Success (body : json)
| Failure (status_code : Z).

Definition respond (r : result json) : response :=
  match r with
  | Ok body => Success body
  | Raise (HTTPException status_code _) => Failure status_code
  | Raise _ => Failure 500
  end.

Inductive request : Type :=
| PostWebhookChannel (payload : json)          (* body already parsed as JSON *)
| PostAlert (body : string) (signature_header : option string).

Definition serve (req : request) : Env -> World -> World * response :=
  fun env w =>
    match req with
    | PostWebhookChannel payload =>
        let (w', r) := channel_webhook payload env w in (w', respond r)
    | PostAlert body signature_header =>
        let (w', r) := receive_alert body signature_header env w in (w', respond r)
    end.

(** One step of the system: a request served in an environment, or the
    store dropping the entry of a key whose [ex] has elapsed. *)
Inductive step : Type :=
| Serve (env : Env) (req : request)
| Expire (key : string).

Definition expire (key : string) (w : World) : World :=
  match redis w !! key with
  | Some _ => {| redis := delete key (redis w);
                 calls := calls w ++ [RedisExpired key] |}
  | None => w
  end.

Definition do_step (w : World) (s : step) : World :=
  match s with
  | Serve env req => fst (serve req env w)
  | Expire key => expire key w
  end.

Definition run (steps : list step) (w : World) : World :=
  fold_left do_step steps w.

Definition initial_world : World := {| redis := ∅; calls := [] |}.

(** ** Observations on the call log *)

(** The handles written under [key] and not removed since, read off the
    log alone: a write adds its handle, a delete or an expiry clears. *)
Definition registry_step (key : string) (live : list string) (c : call)
  : list string :=
  match c with
  | RedisSet k value _ => if String.eqb k key then live ++ [value] else live
  | RedisDelete k => if String.eqb k key then [] else live
  | RedisExpired k => if String.eqb k key then [] else live
  | _ => live
  end.

Definition outstanding (key : string) (cs : list call) : list string :=
  fold_left (registry_step key) cs [].

(** The texts posted to the notification sink. *)
Definition sink_texts (cs : list call) : list string :=
  omap (fun c => match c with SlackPost _ text => Some text | _ => None end) cs.

(** The delayed deliveries scheduled: (body, delay). *)
Definition scheduled (cs : list call) : list (json * Z) :=
  omap (fun c => match c with
                 | QPublish _ body delay => Some (body, delay)
                 | _ => None
                 end) cs.

(** [sub] occurs in [s]. *)
Definition contains (sub s : string) : Prop :=
  exists pre post, s = pre +:+ sub +:+ post.

(** ** Views used by the statements *)

(** What [schedule_timer] does once the cancel step has run. *)
Definition arm_after_cancel (chat_id : json) (delay_seconds : Z)
    (alert_payload : json) (env : Env) (w1 : World) : World * result unit :=
  let url := BASE_URL cfg +:+ "/alert" in
  match publish_result env url alert_payload delay_seconds with
  | Some message_id =>
      ({| redis := <[timer_key chat_id := (message_id, delay_seconds + 60)]> (redis w1);
          calls := calls w1 ++ [QPublish url alert_payload delay_seconds;
                                RedisSet (timer_key chat_id) message_id
                                  (delay_seconds + 60)] |},
       Ok tt)
  | None =>
      ({| redis := redis w1;
          calls := calls w1 ++ [QPublish url alert_payload delay_seconds] |},
       Raise UpstreamError)
  end.

(** The fields [handle_customer_message] reads from an event whose nested
    [chat], [entity] and [user] values are objects (or missing) and whose
    message text can be sliced; [None] when one of these reads raises. *)
Record CustomerMessage := {
  cm_chat_id : json;
  cm_chat_title : json;
  cm_customer_name : json;
  cm_msg_preview : json;
  cm_assignee : json
}.

Definition customer_message_fields (payload : json) : option CustomerMessage :=
  match payload with
  | JObj top =>
      match get_or (JObj []) top "chat", get_or (JObj []) top "entity",
            get_or (JObj []) top "user" with
      | JObj chat, JObj message, JObj user =>
          let chat_id := get_or (JStr "unknown") chat "id" in
          match slice_to 50 (py_or (get_or (JStr "") message "plainText") (JStr "")) with
          | Some msg_preview =>
              Some {| cm_chat_id := chat_id;
                      cm_chat_title := py_or (get_or JNull chat "name") chat_id;
                      cm_customer_name := get_or (JStr "고객") user "name";
                      cm_msg_preview := msg_preview;
                      cm_assignee := get_or JNull chat "assignee" |}
          | None => None
          end
      | _, _, _ => None
      end
  | _ => None
  end.

Definition alert_payload_for (type : string) (cm : CustomerMessage) : json :=
  alert_payload_of type (cm_chat_id cm) (cm_chat_title cm)
    (cm_customer_name cm) (cm_msg_preview cm).

(** The assignee is the operating identity: an object whose [id] is
    [MY_MEMBER_ID]. *)
Definition assigned_to_me (assignee : json) : bool :=
  match assignee with
  | JObj fields => eq_str (get_or JNull fields "id") (MY_MEMBER_ID cfg)
  | _ => false
  end.

(** The conversation id [channel_webhook] reads from a human-activity
    event (a message whose sender is a member, or a reassignment) whose nested
    [event], [entity] and [chat] values are objects (or missing). *)
Definition chat_id_or_empty (top : list (string * json)) : option json :=
  match get_or (JObj []) top "chat" with
  | JObj chat => Some (get_or (JStr "") chat "id")
  | _ => None
  end.

Definition human_activity_chat_id (payload : json) : option json :=
  match payload with
  | JObj top =>
      match get_or (JObj []) top "event" with
      | JObj event =>
          let event_type := get_or (JStr "") event "type" in
          if eq_str event_type "chat_message_created" then
            match get_or (JObj []) top "entity" with
            | JObj entity =>
                let sender_type := get_or (JStr "") entity "personType" in
                if eq_str sender_type "user" then None
                else if eq_str sender_type "member" then chat_id_or_empty top
                else None
            | _ => None
            end
          else if eq_str event_type "chat_assigned" then chat_id_or_empty top
          else None
      | _ => None
      end
  | _ => None
  end.

(** The reads of the path an event takes all succeed: the body and its
    [event] are objects; for a created message [entity] is an object; for a
    staff message or a reassignment [chat] is an object; for a customer
    message within operating hours ([in_hours]) [chat], [entity] and [user]
    are objects, the message text can be sliced and the assignee is null or
    an object.  Values on paths the event does not take are not looked at. *)
Definition reads_succeed (in_hours : bool) (payload : json) : bool :=
  match payload with
  | JObj top =>
      match get_or (JObj []) top "event" with
      | JObj event =>
          let event_type := get_or (JStr "") event "type" in
          if eq_str event_type "chat_message_created" then
            match get_or (JObj []) top "entity" with
            | JObj entity =>
                let sender_type := get_or (JStr "") entity "personType" in
                if eq_str sender_type "user" then
                  if in_hours then
                    match customer_message_fields payload with
                    | Some cm =>
                        match cm_assignee cm with
                        | JNull | JObj _ => true
                        | _ => false
                        end
                    | None => false
                    end
                  else true
                else if eq_str sender_type "member" then
                  match chat_id_or_empty top with Some _ => true | None => false end
                else true
            | _ => false
            end
          else if eq_str event_type "chat_assigned" then
            match chat_id_or_empty top with Some _ => true | None => false end
          else true
      | _ => false
      end
  | _ => false
  end.

(** *** The inbound handlers over a registry client that can fail

    The three registry calls of [main.py] (lines 36, 42 and 52) stand outside
    any [try].  [faults c] tells whether the registry call [c] raises; a call
    that raises has no effect.  The handlers below are the handlers above with
    the registry calls replaced; with no fault they are the same
    ([fallible_channel_webhook_reliable]). *)

Definition fallible_redis_get (faults : call -> bool) (key : string)
  : M (option string) :=
  fun env w =>
    if faults (RedisGet key) then (w, Raise UpstreamError)
    else redis_get key env w.

Definition fallible_redis_delete (faults : call -> bool) (key : string)
  : M unit :=
  fun env w =>
    if faults (RedisDelete key) then (w, Raise UpstreamError)
    else redis_delete key env w.

Definition fallible_redis_set (faults : call -> bool) (key value : string)
    (ex : Z) : M unit :=
  fun env w =>
    if faults (RedisSet key value ex) then (w, Raise UpstreamError)
    else redis_set key value ex env w.

Definition fallible_cancel_existing_timer (faults : call -> bool)
    (chat_id : json) : M unit :=
  msg_id <- fallible_redis_get faults (timer_key chat_id) ;;
  match msg_id with
  | Some id =>
      if negb (String.eqb id "") then
        try_except (qstash_message_cancel id) (ret tt) ;;;
        fallible_redis_delete faults (timer_key chat_id)
      else ret tt
  | None => ret tt
  end.

Definition fallible_schedule_timer (faults : call -> bool) (chat_id : json)
    (delay_seconds : Z) (alert_payload : json) : M unit :=
  fallible_cancel_existing_timer faults chat_id ;;;
  message_id <- qstash_message_publish_json
                  (BASE_URL cfg +:+ "/alert") alert_payload delay_seconds ;;
  fallible_redis_set faults (timer_key chat_id) message_id (delay_seconds + 60).

Definition fallible_handle_customer_message (faults : call -> bool)
    (payload : json) : M unit :=
  in_hours <- is_operation_hours ;;
  if negb in_hours then ret tt else
  chat <- py_get payload "chat" (JObj []) ;;
  message <- py_get payload "entity" (JObj []) ;;
  chat_id <- py_get chat "id" (JStr "unknown") ;;
  name <- py_get chat "name" JNull ;;
  let chat_title := py_or name chat_id in
  user <- py_get payload "user" (JObj []) ;;
  customer_name <- py_get user "name" (JStr "고객") ;;
  plain_text <- py_get message "plainText" (JStr "") ;;
  msg_preview <- py_slice_to 50 (py_or plain_text (JStr "")) ;;
  assignee <- py_get chat "assignee" JNull ;;
  if is_none assignee then
    fallible_schedule_timer faults chat_id (5 * 60)
      (alert_payload_of "unassigned" chat_id chat_title customer_name msg_preview)
  else
    assignee_id <- py_get assignee "id" JNull ;;
    if eq_str assignee_id (MY_MEMBER_ID cfg) then
      fallible_schedule_timer faults chat_id (3 * 60)
        (alert_payload_of "my_chat" chat_id chat_title customer_name msg_preview)
    else ret tt.

Definition fallible_cancel_for_chat (faults : call -> bool) (payload : json)
  : M unit :=
  chat <- py_get payload "chat" (JObj []) ;;
  chat_id <- py_get chat "id" (JStr "") ;;
  if truthy chat_id then fallible_cancel_existing_timer faults chat_id
  else ret tt.

Definition fallible_channel_webhook (faults : call -> bool) (payload : json)
  : M json :=
  event <- py_get payload "event" (JObj []) ;;
  event_type <- py_get event "type" (JStr "") ;;
  (if eq_str event_type "chat_message_created" then
     entity <- py_get payload "entity" (JObj []) ;;
     sender_type <- py_get entity "personType" (JStr "") ;;
     if eq_str sender_type "user" then
       fallible_handle_customer_message faults payload
     else if eq_str sender_type "member" then
       fallible_cancel_for_chat faults payload
     else ret tt
   else if eq_str event_type "chat_assigned" then
     fallible_cancel_for_chat faults payload
   else ret tt) ;;;
  ret ok_body.

(** The inbound endpoint over the fallible registry, as the client sees it. *)
Definition fallible_post_webhook (faults : call -> bool) (payload : json)
  : Env -> World -> World * response :=
  fun env w =>
    let (w', r) := fallible_channel_webhook faults payload env w in
    (w', respond r).

(** Two computations that do the same in every environment and world. *)
Definition agrees {A} (m m' : M A) : Prop :=
  forall env w, m env w = m' env w.

(** *** The registry discipline *)

(** What the store holds under [key], as a list of handles. *)
Definition registry_entry (w : World) (key : string) : list string :=
  match redis w !! key with
  | Some (h, _) => [h]
  | None => []
  end.

(** The calls that leave the registry alone. *)
Definition quiet (c : call) : bool :=
  match c with
  | RedisSet _ _ _ | RedisDelete _ | RedisExpired _ => false
  | _ => true
  end.

(** The delayed-delivery client answers handles: message ids are not empty. *)
Definition publishes_handles (env : Env) : Prop :=
  forall url body delay, publish_result env url body delay <> Some "".

Definition step_ok (s : step) : Prop :=
  match s with
  | Serve env _ => publishes_handles env
  | Expire _ => True
  end.

(** The log and the store tell the same story, at every moment of the log. *)
Record consistent (w : World) : Prop := {
  at_most_one : forall key p,
    p `prefix_of` calls w -> (length (outstanding key p) <= 1)%nat;
  log_matches_store : forall key,
    outstanding key (calls w) = registry_entry w key;
  handles_truthy : forall key h ex, redis w !! key = Some (h, ex) -> h <> ""
}.

(** The worlds a webhook request can leave behind. *)
Inductive reaches (env : Env) (w : World) : World -> Prop :=
| reaches_same : reaches env w w
| reaches_cancel chat_id :
    reaches env w (fst (cancel_existing_timer chat_id env w))
| reaches_arm chat_id delay_seconds alert_payload :
    reaches env w (fst (schedule_timer chat_id delay_seconds alert_payload env w)).

Definition effect_free {A} (m : M A) : Prop :=
  forall env w, fst (m env w) = w.

Definition registry_op {A} (m : M A) : Prop :=
  forall env w, reaches env w (fst (m env w)).

(** *** Further observations *)

(** The number of code points of a UTF-8 string: its bytes that do not
    continue a sequence ([len(s)] on a [str]). *)
Fixpoint char_count (s : string) : nat :=
  match s with
  | EmptyString => O
  | String c rest =>
      if is_continuation c then char_count rest else S (char_count rest)
  end.

(** The handles the delayed-delivery client was asked to cancel. *)
Definition cancelled (cs : list call) : list string :=
  omap (fun c => match c with QCancel msg_id => Some msg_id | _ => None end) cs.

(** The signature verifications made. *)
Definition verified (cs : list call) : list string :=
  omap (fun c => match c with QVerify body _ _ => Some body | _ => None end) cs.

(** [a <= b] on [datetime.time], as a proposition. *)
Definition time_before (a b : time) : Prop :=
  hour a < hour b \/
  (hour a = hour b /\
   (minute a < minute b \/
    (minute a = minute b /\
     (second a < second b \/
      (second a = second b /\ microsecond a <= microsecond b))))).

(** ** The cancel operation *)

Lemma string_eqb_empty_false (s : string) : s <> "" -> String.eqb s "" = false.
Proof. intros Hs. apply String.eqb_neq. exact Hs. Qed.

Lemma cancel_existing_timer_recorded chat_id env w h ex :
  redis w !! timer_key chat_id = Some (h, ex) ->
  h <> "" ->
  cancel_existing_timer chat_id env w =
    ({| redis := delete (timer_key chat_id) (redis w);
        calls := calls w ++ [RedisGet (timer_key chat_id); QCancel h;
                             RedisDelete (timer_key chat_id)] |},
     Ok tt).
Proof.
  intros Hget Hh.
  unfold cancel_existing_timer, bind, redis_get, try_except,
    qstash_message_cancel, redis_delete, ret, log.
  rewrite Hget. simpl.
  rewrite (string_eqb_empty_false h Hh). simpl.
  destruct (cancel_raises env h); simpl; rewrite <- !app_assoc; reflexivity.
Qed.

Lemma cancel_existing_timer_absent chat_id env w :
  redis w !! timer_key chat_id = None ->
  cancel_existing_timer chat_id env w =
    (log (RedisGet (timer_key chat_id)) w, Ok tt).
Proof.
  intros Hget.
  unfold cancel_existing_timer, bind, redis_get, ret.
  rewrite Hget. reflexivity.
Qed.

(** A falsy (empty) stored value is treated as no timer: the entry stays. *)
Lemma cancel_existing_timer_empty_value chat_id env w ex :
  redis w !! timer_key chat_id = Some ("", ex) ->
  cancel_existing_timer chat_id env w =
    (log (RedisGet (timer_key chat_id)) w, Ok tt).
Proof.
  intros Hget.
  unfold cancel_existing_timer, bind, redis_get, ret.
  rewrite Hget. reflexivity.
Qed.

(** C10. When a timer is recorded for conversation [chat_id] (the registry
    holds a delivery handle under its key), [cancel_existing_timer] returns
    normally with the entry deleted, whatever the upstream cancel call does:
    in every environment, in particular one where [qstash.message.cancel]
    raises, the registry lookup for the conversation is absent afterwards. *)
Theorem cancel_deletes_entry_despite_upstream_failure chat_id env w h ex :
  redis w !! timer_key chat_id = Some (h, ex) ->
  h <> "" ->
  let (w', r) := cancel_existing_timer chat_id env w in
  r = Ok tt /\
  redis w' !! timer_key chat_id = None /\
  (forall k, k <> timer_key chat_id -> redis w' !! k = redis w !! k) /\
  calls w' = calls w ++ [RedisGet (timer_key chat_id); QCancel h;
                         RedisDelete (timer_key chat_id)].
Proof.
  intros Hget Hh.
  rewrite (cancel_existing_timer_recorded _ _ _ _ _ Hget Hh). simpl.
  repeat split.
  - apply lookup_delete_eq.
  - intros k Hk. apply lookup_delete_ne. congruence.
Qed.

Lemma cancel_existing_timer_returns chat_id env w :
  snd (cancel_existing_timer chat_id env w) = Ok tt.
Proof.
  unfold cancel_existing_timer, bind, redis_get, try_except,
    qstash_message_cancel, redis_delete, ret.
  destruct (redis w !! timer_key chat_id) as [[h ex]|]; simpl; [|reflexivity].
  destruct (String.eqb h ""); simpl; [reflexivity|].
  destruct (cancel_raises env h); reflexivity.
Qed.

(** ** The arm operation *)

Lemma schedule_timer_eq chat_id delay_seconds alert_payload env w :
  schedule_timer chat_id delay_seconds alert_payload env w =
    arm_after_cancel chat_id delay_seconds alert_payload env
      (fst (cancel_existing_timer chat_id env w)).
Proof.
  unfold schedule_timer, bind at 1.
  pose proof (cancel_existing_timer_returns chat_id env w) as Hr.
  destruct (cancel_existing_timer chat_id env w) as [w1 r]. simpl in *. subst r.
  unfold arm_after_cancel, bind, qstash_message_publish_json, redis_set, log. simpl.
  destruct (publish_result env (BASE_URL cfg +:+ "/alert") alert_payload delay_seconds);
    simpl; [rewrite <- app_assoc|]; reflexivity.
Qed.

(** C5. Arming a conversation that already has a recorded timer calls the
    delayed-delivery client's cancel with the prior handle before the new
    delivery is scheduled (the log reads: registry get, cancel of the prior
    handle, registry delete, publish); when the publish returns a handle it is
    then stored under the conversation's own key, [timer:] followed by the
    conversation id, with a TTL of exactly [delay_seconds + 60], which exceeds
    the delay, and when the publish raises nothing is stored.  The entries of
    all other keys are left as they were. *)
Theorem rearm_cancels_prior_then_stores_with_ttl
    chat_id delay_seconds alert_payload env w h ex :
  let key := "timer:" +:+ py_str chat_id in
  let url := BASE_URL cfg +:+ "/alert" in
  redis w !! key = Some (h, ex) ->
  h <> "" ->
  let (w', r) := schedule_timer chat_id delay_seconds alert_payload env w in
  (forall c, chat_id = JStr c -> key = "timer:" +:+ c) /\
  (forall k, k <> key -> redis w' !! k = redis w !! k) /\
  exists tail,
    calls w' = calls w ++ [RedisGet key; QCancel h; RedisDelete key;
                           QPublish url alert_payload delay_seconds] ++ tail /\
    match publish_result env url alert_payload delay_seconds with
    | Some message_id =>
        r = Ok tt /\
        tail = [RedisSet key message_id (delay_seconds + 60)] /\
        redis w' !! key = Some (message_id, delay_seconds + 60) /\
        delay_seconds < delay_seconds + 60
    | None =>
        r = Raise UpstreamError /\ tail = [] /\ redis w' !! key = None
    end.
Proof.
  intros key url Hget Hh.
  change key with (timer_key chat_id) in *.
  rewrite schedule_timer_eq.
  rewrite (cancel_existing_timer_recorded _ _ _ _ _ Hget Hh).
  unfold arm_after_cancel. simpl. fold url.
  destruct (publish_result env url alert_payload delay_seconds) as [message_id|];
    simpl; (split; [intros c ->; reflexivity|]).
  - split.
    { intros k Hk. rewrite lookup_insert_ne by congruence.
      apply lookup_delete_ne. congruence. }
    exists [RedisSet (timer_key chat_id) message_id (delay_seconds + 60)]. split.
    + rewrite <- app_assoc. reflexivity.
    + repeat split; [apply lookup_insert_eq | lia].
  - split.
    { intros k Hk. apply lookup_delete_ne. congruence. }
    exists []. split.
    + rewrite <- app_assoc. reflexivity.
    + repeat split. apply lookup_delete_eq.
Qed.

(** ** Customer messages *)

Lemma handle_customer_message_outside_hours payload env w :
  operation_hours env = false ->
  handle_customer_message payload env w = (w, Ok tt).
Proof.
  intros Hh. unfold handle_customer_message, bind at 1, is_operation_hours.
  rewrite Hh. reflexivity.
Qed.

Lemma handle_customer_message_fields payload cm env w :
  customer_message_fields payload = Some cm ->
  operation_hours env = true ->
  handle_customer_message payload env w =
    if is_none (cm_assignee cm) then
      schedule_timer (cm_chat_id cm) 300 (alert_payload_for "unassigned" cm) env w
    else
      match cm_assignee cm with
      | JObj _ =>
          if assigned_to_me (cm_assignee cm) then
            schedule_timer (cm_chat_id cm) 180 (alert_payload_for "my_chat" cm) env w
          else (w, Ok tt)
      | _ => (w, Raise AttributeError)
      end.
Proof.
  intros Hf Hh.
  unfold handle_customer_message, bind at 1, is_operation_hours.
  rewrite Hh. simpl.
  unfold customer_message_fields in Hf.
  destruct payload as [| | | | |top]; try discriminate.
  destruct (get_or (JObj []) top "chat") as [| | | | |chat] eqn:Hchat; try discriminate.
  destruct (get_or (JObj []) top "entity") as [| | | | |message] eqn:Hent;
    try discriminate.
  destruct (get_or (JObj []) top "user") as [| | | | |user] eqn:Huser;
    try discriminate.
  destruct (slice_to 50 _) as [msg_preview|] eqn:Hslice; try discriminate.
  injection Hf as <-.
  unfold bind, py_get, py_slice_to, ret. simpl.
  rewrite Hchat, Hent, Huser. simpl. rewrite Hslice. simpl.
  unfold alert_payload_for. simpl.
  destruct (get_or JNull chat "assignee") as [| | | | |a]; simpl; try reflexivity.
  destruct (eq_str (get_or JNull a "id") (MY_MEMBER_ID cfg)); reflexivity.
Qed.

Lemma cancel_existing_timer_cases chat_id env w :
  let key := timer_key chat_id in
  (cancel_existing_timer chat_id env w = (log (RedisGet key) w, Ok tt) /\
   (redis w !! key = None \/ exists ex, redis w !! key = Some ("", ex))) \/
  (exists h ex,
     redis w !! key = Some (h, ex) /\ h <> "" /\
     cancel_existing_timer chat_id env w =
       ({| redis := delete key (redis w);
           calls := calls w ++ [RedisGet key; QCancel h; RedisDelete key] |},
        Ok tt)).
Proof.
  intros key.
  destruct (redis w !! key) as [[h ex]|] eqn:Hget.
  - destruct (String.eqb_spec h "") as [->|Hne].
    + left. split; [|right; eauto].
      apply (cancel_existing_timer_empty_value chat_id env w ex Hget).
    + right. exists h, ex. repeat split; [assumption|].
      apply (cancel_existing_timer_recorded chat_id env w h ex Hget Hne).
  - left. split; [|left; reflexivity].
    apply cancel_existing_timer_absent; assumption.
Qed.

Lemma scheduled_app cs1 cs2 :
  scheduled (cs1 ++ cs2) = scheduled cs1 ++ scheduled cs2.
Proof. apply omap_app. Qed.

Lemma sink_texts_app cs1 cs2 :
  sink_texts (cs1 ++ cs2) = sink_texts cs1 ++ sink_texts cs2.
Proof. apply omap_app. Qed.

Lemma cancel_existing_timer_scheduled chat_id env w :
  scheduled (calls (fst (cancel_existing_timer chat_id env w))) =
  scheduled (calls w).
Proof.
  destruct (cancel_existing_timer_cases chat_id env w)
    as [[-> _]|(h & ex & _ & _ & ->)]; simpl;
    rewrite scheduled_app; simpl; apply app_nil_r.
Qed.

(** After the arm operation returned, the conversation's key holds the
    handle the publish call answered, with [ex = delay_seconds + 60], and
    exactly one delivery has been scheduled. *)
Lemma schedule_timer_published chat_id delay_seconds alert_payload env w message_id :
  publish_result env (BASE_URL cfg +:+ "/alert") alert_payload delay_seconds
    = Some message_id ->
  let (w', r) := schedule_timer chat_id delay_seconds alert_payload env w in
  r = Ok tt /\
  redis w' !! timer_key chat_id = Some (message_id, delay_seconds + 60) /\
  scheduled (calls w') = scheduled (calls w) ++ [(alert_payload, delay_seconds)].
Proof.
  intros Hpub. rewrite schedule_timer_eq. unfold arm_after_cancel.
  rewrite Hpub. simpl. repeat split.
  - apply lookup_insert_eq.
  - rewrite scheduled_app, cancel_existing_timer_scheduled. reflexivity.
Qed.

(** C2. A customer message whose assignee is null: within operating hours
    the engine schedules one delivery with delay 5 minutes (300 seconds) whose
    body is the alert payload of type [unassigned] (with the conversation id,
    title, customer name and preview read from the event), and once the
    schedule call has answered a handle the registry holds it under the
    conversation's key [timer:<id>]; outside operating hours the handler
    returns at once, the world unchanged (nothing armed, no registry entry
    written). *)
Theorem unassigned_customer_message_arms_five_minutes payload cm env w :
  customer_message_fields payload = Some cm ->
  cm_assignee cm = JNull ->
  let body := JObj [("type", JStr "unassigned");
                    ("chat_id", cm_chat_id cm);
                    ("chat_title", cm_chat_title cm);
                    ("customer_name", cm_customer_name cm);
                    ("msg_preview", cm_msg_preview cm)] in
  (operation_hours env = true ->
   forall message_id,
     publish_result env (BASE_URL cfg +:+ "/alert") body (5 * 60)
       = Some message_id ->
     let (w', r) := handle_customer_message payload env w in
     r = Ok tt /\
     scheduled (calls w') = scheduled (calls w) ++ [(body, 5 * 60)] /\
     redis w' !! ("timer:" +:+ py_str (cm_chat_id cm))
       = Some (message_id, 5 * 60 + 60)) /\
  (operation_hours env = false ->
   handle_customer_message payload env w = (w, Ok tt)).
Proof.
  intros Hf Hnull body. split.
  - intros Hh message_id Hpub.
    rewrite (handle_customer_message_fields _ _ _ _ Hf Hh), Hnull. simpl.
    pose proof (schedule_timer_published (cm_chat_id cm) 300
                  (alert_payload_for "unassigned" cm) env w message_id Hpub) as H.
    destruct (schedule_timer _ _ _ env w) as [w' r].
    destruct H as (Hr & Hreg & Hs). auto.
  - apply handle_customer_message_outside_hours.
Qed.

(** C3. A customer message within operating hours whose assignee is the
    operating identity (an object whose id is [MY_MEMBER_ID]) schedules one
    delivery with delay 3 minutes (180 seconds) whose body is the alert
    payload of type [my_chat] (the tag the program gives the my-conversation
    kind), recorded in the registry under [timer:<id>] once the schedule call
    has answered; a customer message whose assignee is neither null nor the
    operating identity arms nothing: no call is made and the registry is
    unchanged, at any hour. *)
Theorem assigned_customer_message_arms_three_minutes_or_nothing payload cm env w :
  customer_message_fields payload = Some cm ->
  is_none (cm_assignee cm) = false ->
  let body := JObj [("type", JStr "my_chat");
                    ("chat_id", cm_chat_id cm);
                    ("chat_title", cm_chat_title cm);
                    ("customer_name", cm_customer_name cm);
                    ("msg_preview", cm_msg_preview cm)] in
  (assigned_to_me (cm_assignee cm) = true ->
   operation_hours env = true ->
   forall message_id,
     publish_result env (BASE_URL cfg +:+ "/alert") body (3 * 60)
       = Some message_id ->
     let (w', r) := handle_customer_message payload env w in
     r = Ok tt /\
     scheduled (calls w') = scheduled (calls w) ++ [(body, 3 * 60)] /\
     redis w' !! ("timer:" +:+ py_str (cm_chat_id cm))
       = Some (message_id, 3 * 60 + 60)) /\
  (assigned_to_me (cm_assignee cm) = false ->
   fst (handle_customer_message payload env w) = w /\
   (forall fields, cm_assignee cm = JObj fields ->
      snd (handle_customer_message payload env w) = Ok tt)).
Proof.
  intros Hf Hnn body. split.
  - intros Hme Hh message_id Hpub.
    rewrite (handle_customer_message_fields _ _ _ _ Hf Hh), Hnn, Hme.
    destruct (cm_assignee cm) as [| | | | |a] eqn:Ha; try discriminate.
    pose proof (schedule_timer_published (cm_chat_id cm) 180
                  (alert_payload_for "my_chat" cm) env w message_id Hpub) as H.
    destruct (schedule_timer _ _ _ env w) as [w' r].
    destruct H as (Hr & Hreg & Hs). auto.
  - intros Hme.
    destruct (operation_hours env) eqn:Hh.
    + rewrite (handle_customer_message_fields _ _ _ _ Hf Hh), Hnn, Hme.
      split.
      * destruct (cm_assignee cm); reflexivity.
      * intros fields ->. reflexivity.
    + rewrite (handle_customer_message_outside_hours _ _ _ Hh). auto.
Qed.

(** ** Human activity *)

Lemma channel_webhook_human_activity payload chat_id env w :
  human_activity_chat_id payload = Some chat_id ->
  channel_webhook payload env w =
    if truthy chat_id
    then (fst (cancel_existing_timer chat_id env w), Ok ok_body)
    else (w, Ok ok_body).
Proof.
  intros Hha. unfold human_activity_chat_id in Hha.
  destruct payload as [| | | | |top]; try discriminate.
  destruct (get_or (JObj []) top "event") as [| | | | |event] eqn:Hev;
    try discriminate.
  assert (Hcancel : forall chat,
            get_or (JObj []) top "chat" = JObj chat ->
            get_or (JStr "") chat "id" = chat_id ->
            bind (cancel_for_chat (JObj top)) (fun _ => ret ok_body) env w =
              if truthy chat_id
              then (fst (cancel_existing_timer chat_id env w), Ok ok_body)
              else (w, Ok ok_body)).
  { intros chat Hchat Hid.
    unfold cancel_for_chat, bind, py_get, ret. simpl.
    rewrite Hchat. simpl. rewrite Hid.
    destruct (truthy chat_id); [|reflexivity].
    pose proof (cancel_existing_timer_returns chat_id env w) as Hr.
    destruct (cancel_existing_timer chat_id env w) as [w1 r].
    simpl in *. subst r. reflexivity. }
  unfold chat_id_or_empty in Hha.
  unfold channel_webhook.
  unfold bind at 1, py_get at 1, ret at 1. simpl. rewrite Hev.
  unfold bind at 1, py_get at 1, ret at 1. simpl.
  destruct (eq_str (get_or (JStr "") event "type") "chat_message_created").
  - destruct (get_or (JObj []) top "entity") as [| | | | |entity] eqn:Hent;
      try discriminate.
    destruct (eq_str (get_or (JStr "") entity "personType") "user") eqn:Huser;
      try discriminate.
    destruct (eq_str (get_or (JStr "") entity "personType") "member") eqn:Hmem;
      try discriminate.
    destruct (get_or (JObj []) top "chat") as [| | | | |chat] eqn:Hchat;
      try discriminate.
    injection Hha as Hid.
    rewrite <- (Hcancel chat eq_refl Hid).
    unfold bind, py_get, ret. simpl.
    rewrite Huser, Hmem. reflexivity.
  - destruct (eq_str (get_or (JStr "") event "type") "chat_assigned");
      try discriminate.
    destruct (get_or (JObj []) top "chat") as [| | | | |chat] eqn:Hchat;
      try discriminate.
    injection Hha as Hid.
    apply (Hcancel chat eq_refl Hid).
Qed.

(** C4, as the program has it. A human-activity event whose conversation id
    is present and truthy (a non-empty string) cancels the conversation's
    timer: when a handle is recorded under [timer:<id>] the handler reads it,
    calls the delayed-delivery client's cancel with that handle and deletes
    the entry, so that a registry lookup right after yields absent, and the
    endpoint acknowledges; when no timer is recorded the handler only reads
    the registry, raises nothing and leaves the store as it was.  (When the id
    is missing or empty the guard [if chat_id:] skips the cancel.) *)
Theorem human_activity_cancels_when_id_present payload chat_id env w :
  human_activity_chat_id payload = Some chat_id ->
  truthy chat_id = true ->
  let key := "timer:" +:+ py_str chat_id in
  (forall ex, redis w !! key <> Some ("", ex)) ->
  let (w', r) := channel_webhook payload env w in
  r = Ok ok_body /\
  redis w' !! key = None /\
  (forall h ex,
     redis w !! key = Some (h, ex) ->
     calls w' = calls w ++ [RedisGet key; QCancel h; RedisDelete key]) /\
  (redis w !! key = None ->
     redis w' = redis w /\ calls w' = calls w ++ [RedisGet key]).
Proof.
  intros Hha Ht key Hne. change key with (timer_key chat_id) in *.
  rewrite (channel_webhook_human_activity _ _ _ _ Hha), Ht.
  destruct (cancel_existing_timer_cases chat_id env w)
    as [[-> [Hnone|[ex Hex]]]|(h & ex & Hget & Hh & ->)]; simpl.
  - split; [reflexivity|]. split; [exact Hnone|]. split.
    + intros h ex Hget. congruence.
    + auto.
  - destruct (Hne ex Hex).
  - split; [reflexivity|]. split; [apply lookup_delete_eq|]. split.
    + intros h' ex' Hget'. congruence.
    + intros Hnone. congruence.
Qed.

(** ** The fire callback *)

Lemma contains_intro pre sub post : contains sub (pre +:+ sub +:+ post).
Proof. exists pre, post. reflexivity. Qed.

Lemma string_app_assoc (a b c : string) : (a +:+ b) +:+ c = a +:+ (b +:+ c).
Proof.
  induction a as [|x a IH]; [reflexivity|].
  change (String x ((a +:+ b) +:+ c) = String x (a +:+ (b +:+ c))).
  now rewrite IH.
Qed.

Lemma receive_alert_bad_signature body signature_header env w :
  verify_ok env body (default "" signature_header) (BASE_URL cfg +:+ "/alert")
    = false ->
  receive_alert body signature_header env w =
    (log (QVerify body (default "" signature_header) (BASE_URL cfg +:+ "/alert")) w,
     Raise (HTTPException 401 "Invalid signature")).
Proof.
  intros Hv.
  unfold receive_alert, bind at 1, try_except, qstash_receiver_verify, raise.
  rewrite Hv. reflexivity.
Qed.

(** What [receive_alert] does once the signature is verified and the body
    parsed to a dict. *)
Lemma receive_alert_verified body signature_header env w data :
  verify_ok env body (default "" signature_header) (BASE_URL cfg +:+ "/alert")
    = true ->
  json_loads body = Some (JObj data) ->
  let w1 := log (QVerify body (default "" signature_header)
                   (BASE_URL cfg +:+ "/alert")) w in
  let alert_type := get_or JNull data "type" in
  let chat_title := get_or (JStr "알 수 없음") data "chat_title" in
  let customer_name := get_or (JStr "고객") data "customer_name" in
  let msg_preview := get_or (JStr "") data "msg_preview" in
  receive_alert body signature_header env w =
    if eq_str alert_type "unassigned" then
      bind (send_slack (unassigned_text chat_title customer_name msg_preview))
           (fun _ => ret ok_body) env w1
    else if eq_str alert_type "my_chat" then
      bind (send_slack (my_chat_text chat_title customer_name msg_preview))
           (fun _ => ret ok_body) env w1
    else (w1, Ok ok_body).
Proof.
  intros Hv Hjson. simpl.
  unfold receive_alert, bind at 1, try_except, qstash_receiver_verify.
  rewrite Hv. unfold bind at 1. rewrite Hjson.
  unfold py_get, bind, ret. simpl.
  destruct (eq_str (get_or JNull data "type") "unassigned"); [reflexivity|].
  destruct (eq_str (get_or JNull data "type") "my_chat"); reflexivity.
Qed.

(** C6. A fire callback whose signature fails verification is answered 401;
    the only call made is the verification itself: nothing is posted to the
    notification sink and the registry is untouched. *)
Theorem invalid_signature_rejected_without_dispatch body signature_header env w :
  verify_ok env body (default "" signature_header) (BASE_URL cfg +:+ "/alert")
    = false ->
  let (w', resp) := serve (PostAlert body signature_header) env w in
  resp = Failure 401 /\
  sink_texts (calls w') = sink_texts (calls w) /\
  redis w' = redis w /\
  calls w' = calls w ++ [QVerify body (default "" signature_header)
                           (BASE_URL cfg +:+ "/alert")].
Proof.
  intros Hv. unfold serve.
  rewrite (receive_alert_bad_signature _ _ _ _ Hv). simpl.
  repeat split. rewrite sink_texts_app. simpl. apply app_nil_r.
Qed.

Lemma unassigned_text_contains title name preview :
  let text := unassigned_text (JStr title) (JStr name) (JStr preview) in
  contains title text /\ contains name text /\ contains preview text /\
  contains "5" text.
Proof.
  simpl.
  unfold unassigned_text, py_str.
  repeat split.
  - exists ("🔴 *미배정 문의 미응답 알림*" +:+ newline +:+ "> 채팅방: "),
      (newline +:+ "> 고객: " +:+ name +:+ newline +:+
       "> 마지막 메시지: " +:+ preview +:+ newline +:+ "> ⏰ 5분째 미응답 중입니다!").
    rewrite !string_app_assoc. reflexivity.
  - exists ("🔴 *미배정 문의 미응답 알림*" +:+ newline +:+ "> 채팅방: " +:+ title +:+
            newline +:+ "> 고객: "),
      (newline +:+ "> 마지막 메시지: " +:+ preview +:+ newline +:+
       "> ⏰ 5분째 미응답 중입니다!").
    rewrite !string_app_assoc. reflexivity.
  - exists ("🔴 *미배정 문의 미응답 알림*" +:+ newline +:+ "> 채팅방: " +:+ title +:+
            newline +:+ "> 고객: " +:+ name +:+ newline +:+ "> 마지막 메시지: "),
      (newline +:+ "> ⏰ 5분째 미응답 중입니다!").
    rewrite !string_app_assoc. reflexivity.
  - exists ("🔴 *미배정 문의 미응답 알림*" +:+ newline +:+ "> 채팅방: " +:+ title +:+
            newline +:+ "> 고객: " +:+ name +:+ newline +:+ "> 마지막 메시지: " +:+
            preview +:+ newline +:+ "> ⏰ "),
      "분째 미응답 중입니다!".
    rewrite !string_app_assoc. reflexivity.
Qed.

(** C7. A fire callback with a valid signature whose body is an alert
    payload of type [unassigned] makes exactly one call on the notification
    sink; its text is the unassigned template, in which the conversation
    title, the customer name and the message preview stand verbatim, followed
    by the duration figure 5. *)
Theorem unassigned_alert_posts_one_message
    body signature_header env w data title name preview :
  verify_ok env body (default "" signature_header) (BASE_URL cfg +:+ "/alert")
    = true ->
  json_loads body = Some (JObj data) ->
  assoc "type" data = Some (JStr "unassigned") ->
  assoc "chat_title" data = Some (JStr title) ->
  assoc "customer_name" data = Some (JStr name) ->
  assoc "msg_preview" data = Some (JStr preview) ->
  let (w', _) := serve (PostAlert body signature_header) env w in
  exists text,
    sink_texts (calls w') = sink_texts (calls w) ++ [text] /\
    text = unassigned_text (JStr title) (JStr name) (JStr preview) /\
    contains title text /\ contains name text /\ contains preview text /\
    contains "5" text.
Proof.
  intros Hv Hjson Htype Htitle Hname Hprev. unfold serve.
  rewrite (receive_alert_verified _ _ _ _ _ Hv Hjson).
  unfold get_or. rewrite Htype, Htitle, Hname, Hprev. simpl.
  unfold bind, send_slack, ret, log. simpl.
  destruct (post_raises env _ _); simpl;
    exists (unassigned_text (JStr title) (JStr name) (JStr preview));
    (split; [rewrite !sink_texts_app; simpl; rewrite app_nil_r; reflexivity|]);
    (split; [reflexivity|]); apply unassigned_text_contains.
Qed.

(** C8, as the program has it. A fire callback that passes verification and
    whose body parses to a JSON object is acknowledged with success when its
    type is unknown (nothing is posted to the sink) and, for the two known
    types, whenever the sink call itself does not raise, whatever status the
    sink answers; a transport error of the sink call is not caught and fails
    the request. *)
Theorem verified_alert_acknowledged_unless_sink_raises
    body signature_header env w data :
  verify_ok env body (default "" signature_header) (BASE_URL cfg +:+ "/alert")
    = true ->
  json_loads body = Some (JObj data) ->
  let alert_type := get_or JNull data "type" in
  let (w', resp) := serve (PostAlert body signature_header) env w in
  (eq_str alert_type "unassigned" = false ->
   eq_str alert_type "my_chat" = false ->
   resp = Success ok_body /\ sink_texts (calls w') = sink_texts (calls w)) /\
  ((forall text, post_raises env (SLACK_WEBHOOK_URL cfg) text = false) ->
   resp = Success ok_body).
Proof.
  intros Hv Hjson alert_type. unfold serve.
  rewrite (receive_alert_verified _ _ _ _ _ Hv Hjson). fold alert_type.
  unfold bind, send_slack, ret, log. simpl.
  destruct (eq_str alert_type "unassigned").
  - destruct (post_raises env _ _) eqn:Hp; simpl;
      (split; [discriminate|]); intros Hpost;
      [rewrite Hpost in Hp; discriminate | reflexivity].
  - destruct (eq_str alert_type "my_chat").
    + destruct (post_raises env _ _) eqn:Hp; simpl;
        (split; [discriminate|]); intros Hpost;
        [rewrite Hpost in Hp; discriminate | reflexivity].
    + simpl. split; [|reflexivity]. intros _ _. split; [reflexivity|].
      rewrite sink_texts_app. simpl. apply app_nil_r.
Qed.

(** ** The inbound event endpoint *)

Lemma schedule_timer_returns chat_id delay_seconds alert_payload env w :
  (forall url body delay, publish_result env url body delay <> None) ->
  snd (schedule_timer chat_id delay_seconds alert_payload env w) = Ok tt.
Proof.
  intros Hpub. rewrite schedule_timer_eq. unfold arm_after_cancel.
  destruct (publish_result env _ _ _) eqn:Hp; [reflexivity|].
  destruct (Hpub _ _ _ Hp).
Qed.


(** ** At most one handle per conversation *)

Lemma outstanding_snoc key cs c :
  outstanding key (cs ++ [c]) = registry_step key (outstanding key cs) c.
Proof. unfold outstanding. rewrite fold_left_app. reflexivity. Qed.

Lemma prefix_snoc_cases (p cs : list call) c :
  p `prefix_of` cs ++ [c] -> p `prefix_of` cs \/ p = cs ++ [c].
Proof.
  intros [k Hk]. destruct k as [|x k _] using rev_ind.
  - right. rewrite app_nil_r in Hk. congruence.
  - left. rewrite app_assoc in Hk. apply app_inj_tail in Hk as [-> _].
    exists k. reflexivity.
Qed.

Lemma at_most_one_snoc cs c :
  (forall key p, p `prefix_of` cs -> (length (outstanding key p) <= 1)%nat) ->
  (forall key, (length (registry_step key (outstanding key cs) c) <= 1)%nat) ->
  forall key p, p `prefix_of` cs ++ [c] -> (length (outstanding key p) <= 1)%nat.
Proof.
  intros Hcs Hc key p Hp.
  destruct (prefix_snoc_cases _ _ _ Hp) as [Hp'| ->].
  - apply Hcs, Hp'.
  - rewrite outstanding_snoc. apply Hc.
Qed.

Lemma consistent_now w key :
  consistent w -> (length (outstanding key (calls w)) <= 1)%nat.
Proof. intros Hw. apply (at_most_one w Hw). reflexivity. Qed.

Lemma consistent_quiet w c :
  consistent w -> quiet c = true -> consistent (log c w).
Proof.
  intros Hw Hq.
  assert (Hstep : forall key live, registry_step key live c = live).
  { intros key live. destruct c; simpl in *; congruence. }
  constructor; simpl.
  - apply at_most_one_snoc; [apply Hw|].
    intros key. rewrite Hstep. apply consistent_now, Hw.
  - intros key. rewrite outstanding_snoc, Hstep. apply Hw.
  - apply Hw.
Qed.

Lemma consistent_remove w k c :
  c = RedisDelete k \/ c = RedisExpired k ->
  consistent w ->
  consistent {| redis := delete k (redis w); calls := calls w ++ [c] |}.
Proof.
  intros Hc Hw.
  assert (Hstep : forall key live,
            registry_step key live c = if String.eqb k key then [] else live).
  { intros key live. destruct Hc as [-> | ->]; reflexivity. }
  constructor; simpl.
  - apply at_most_one_snoc; [apply Hw|].
    intros key. rewrite Hstep.
    destruct (String.eqb k key); [simpl; lia | apply consistent_now, Hw].
  - intros key. rewrite outstanding_snoc, Hstep.
    unfold registry_entry. simpl.
    destruct (String.eqb_spec k key) as [->|Hne].
    + rewrite lookup_delete_eq. reflexivity.
    + rewrite lookup_delete_ne by exact Hne. apply Hw.
  - intros key h ex. destruct (decide (k = key)) as [->|Hne].
    + rewrite lookup_delete_eq. discriminate.
    + rewrite lookup_delete_ne by exact Hne. apply Hw.
Qed.

Lemma consistent_set w k h ex :
  consistent w ->
  redis w !! k = None ->
  h <> "" ->
  consistent {| redis := <[k := (h, ex)]> (redis w);
                calls := calls w ++ [RedisSet k h ex] |}.
Proof.
  intros Hw Hfree Hh.
  assert (Hempty : outstanding k (calls w) = []).
  { rewrite (log_matches_store w Hw). unfold registry_entry. rewrite Hfree.
    reflexivity. }
  constructor; simpl.
  - apply at_most_one_snoc; [apply Hw|].
    intros key. simpl. destruct (String.eqb_spec k key) as [<-|Hne].
    + rewrite Hempty. simpl. lia.
    + apply consistent_now, Hw.
  - intros key. rewrite outstanding_snoc. unfold registry_entry. simpl.
    destruct (String.eqb_spec k key) as [<-|Hne].
    + rewrite lookup_insert_eq, Hempty. reflexivity.
    + rewrite lookup_insert_ne by exact Hne. apply Hw.
  - intros key h' ex'. destruct (decide (k = key)) as [<-|Hne].
    + rewrite lookup_insert_eq. congruence.
    + rewrite lookup_insert_ne by exact Hne. apply Hw.
Qed.

Lemma consistent_cancel chat_id env w :
  consistent w ->
  consistent (fst (cancel_existing_timer chat_id env w)) /\
  redis (fst (cancel_existing_timer chat_id env w)) !! timer_key chat_id = None.
Proof.
  intros Hw.
  destruct (cancel_existing_timer_cases chat_id env w)
    as [[-> [Hnone|[ex Hex]]]|(h & ex & Hget & Hh & ->)]; simpl.
  - split; [apply consistent_quiet; [exact Hw|reflexivity] | exact Hnone].
  - destruct (handles_truthy w Hw _ _ _ Hex). reflexivity.
  - split; [|apply lookup_delete_eq].
    replace (calls w ++ [RedisGet (timer_key chat_id); QCancel h;
                         RedisDelete (timer_key chat_id)])
      with (((calls w ++ [RedisGet (timer_key chat_id)]) ++ [QCancel h])
            ++ [RedisDelete (timer_key chat_id)])
      by (rewrite <- !app_assoc; reflexivity).
    apply (consistent_remove
             (log (QCancel h) (log (RedisGet (timer_key chat_id)) w))
             (timer_key chat_id) (RedisDelete (timer_key chat_id))
             (or_introl eq_refl)).
    apply consistent_quiet; [|reflexivity].
    apply consistent_quiet; [exact Hw|reflexivity].
Qed.

Lemma consistent_arm chat_id delay_seconds alert_payload env w :
  publishes_handles env ->
  consistent w ->
  consistent (fst (schedule_timer chat_id delay_seconds alert_payload env w)).
Proof.
  intros Henv Hw. rewrite schedule_timer_eq.
  destruct (consistent_cancel chat_id env w Hw) as [Hw1 Hfree].
  set (w1 := fst (cancel_existing_timer chat_id env w)) in *.
  unfold arm_after_cancel.
  destruct (publish_result env _ _ _) as [message_id|] eqn:Hpub; simpl.
  - replace (calls w1 ++ [QPublish (BASE_URL cfg +:+ "/alert") alert_payload
                                    delay_seconds;
                          RedisSet (timer_key chat_id) message_id
                                   (delay_seconds + 60)])
      with ((calls w1 ++ [QPublish (BASE_URL cfg +:+ "/alert") alert_payload
                                     delay_seconds])
            ++ [RedisSet (timer_key chat_id) message_id (delay_seconds + 60)])
      by (rewrite <- app_assoc; reflexivity).
    apply (consistent_set
             (log (QPublish (BASE_URL cfg +:+ "/alert") alert_payload delay_seconds) w1)
             (timer_key chat_id) message_id (delay_seconds + 60)).
    + apply consistent_quiet; [exact Hw1|reflexivity].
    + exact Hfree.
    + intros ->. apply (Henv _ _ _ Hpub).
  - apply (consistent_quiet w1 (QPublish _ _ _) Hw1). reflexivity.
Qed.

Lemma consistent_reaches env w w' :
  publishes_handles env -> consistent w -> reaches env w w' -> consistent w'.
Proof.
  intros Henv Hw [| chat_id | chat_id delay_seconds alert_payload].
  - exact Hw.
  - apply consistent_cancel, Hw.
  - apply consistent_arm; assumption.
Qed.

(** *** Which worlds a request can reach *)

Create HintDb effect_free.

Lemma effect_free_ret {A} (a : A) : effect_free (ret a).
Proof. intros env w. reflexivity. Qed.

Lemma effect_free_raise {A} (e : exn) : effect_free (@raise A e).
Proof. intros env w. reflexivity. Qed.

Lemma effect_free_py_get obj k dflt : effect_free (py_get obj k dflt).
Proof. intros env w. destruct obj; reflexivity. Qed.

Lemma effect_free_py_slice_to n v : effect_free (py_slice_to n v).
Proof. intros env w. unfold py_slice_to. destruct (slice_to n v); reflexivity. Qed.

Lemma effect_free_is_operation_hours : effect_free is_operation_hours.
Proof. intros env w. reflexivity. Qed.

#[local] Hint Resolve effect_free_ret effect_free_raise effect_free_py_get
  effect_free_py_slice_to effect_free_is_operation_hours : effect_free.

Lemma registry_op_effect_free {A} (m : M A) : effect_free m -> registry_op m.
Proof. intros Hm env w. rewrite Hm. constructor. Qed.

Lemma registry_op_bind_l {A B} (m : M A) (k : A -> M B) :
  effect_free m -> (forall a, registry_op (k a)) -> registry_op (bind m k).
Proof.
  intros Hm Hk env w. unfold bind. specialize (Hm env w).
  destruct (m env w) as [w1 [a|e]]; simpl in Hm; subst w1.
  - apply Hk.
  - constructor.
Qed.

Lemma registry_op_bind_r {A B} (m : M A) (k : A -> M B) :
  registry_op m -> (forall a, effect_free (k a)) -> registry_op (bind m k).
Proof.
  intros Hm Hk env w. unfold bind. specialize (Hm env w).
  destruct (m env w) as [w1 [a|e]]; simpl in *.
  - rewrite Hk. exact Hm.
  - exact Hm.
Qed.

Lemma registry_op_cancel chat_id : registry_op (cancel_existing_timer chat_id).
Proof. intros env w. constructor. Qed.

Lemma registry_op_schedule chat_id delay_seconds alert_payload :
  registry_op (schedule_timer chat_id delay_seconds alert_payload).
Proof. intros env w. constructor. Qed.

Ltac registry_op_tac :=
  repeat first
    [ apply registry_op_cancel
    | apply registry_op_schedule
    | apply registry_op_effect_free; solve [auto with effect_free]
    | apply registry_op_bind_l; [solve [auto with effect_free] | intros ?]
    | match goal with
      | |- registry_op (if ?b then _ else _) => destruct b
      end ].

Lemma registry_op_handle_customer_message payload :
  registry_op (handle_customer_message payload).
Proof. unfold handle_customer_message. cbv zeta. registry_op_tac. Qed.

Lemma registry_op_cancel_for_chat payload : registry_op (cancel_for_chat payload).
Proof. unfold cancel_for_chat. registry_op_tac. Qed.

Lemma registry_op_channel_webhook payload : registry_op (channel_webhook payload).
Proof.
  unfold channel_webhook.
  apply registry_op_bind_l; [auto with effect_free | intros event].
  apply registry_op_bind_l; [auto with effect_free | intros event_type].
  apply registry_op_bind_r; [|auto with effect_free].
  destruct (eq_str event_type "chat_message_created").
  - apply registry_op_bind_l; [auto with effect_free | intros entity].
    apply registry_op_bind_l; [auto with effect_free | intros sender_type].
    destruct (eq_str sender_type "user");
      [apply registry_op_handle_customer_message|].
    destruct (eq_str sender_type "member");
      [apply registry_op_cancel_for_chat|].
    apply registry_op_effect_free. auto with effect_free.
  - destruct (eq_str event_type "chat_assigned");
      [apply registry_op_cancel_for_chat|].
    apply registry_op_effect_free. auto with effect_free.
Qed.

(** The fire callback never touches the registry: it logs the verification
    and at most one post to the sink. *)
Lemma receive_alert_world body signature_header env w :
  let w1 := log (QVerify body (default "" signature_header)
                   (BASE_URL cfg +:+ "/alert")) w in
  fst (receive_alert body signature_header env w) = w1 \/
  exists text,
    fst (receive_alert body signature_header env w) =
      log (SlackPost (SLACK_WEBHOOK_URL cfg) text) w1.
Proof.
  simpl.
  destruct (verify_ok env body (default "" signature_header)
              (BASE_URL cfg +:+ "/alert")) eqn:Hv.
  - destruct (json_loads body) as [data|] eqn:Hjson.
    + destruct data as [| | | | |data];
        try (left; unfold receive_alert, bind, try_except,
               qstash_receiver_verify; simpl; rewrite Hv, Hjson; reflexivity).
      rewrite (receive_alert_verified _ _ _ _ _ Hv Hjson).
      unfold bind, send_slack, ret.
      destruct (eq_str _ "unassigned").
      * right. eexists. destruct (post_raises env _ _); reflexivity.
      * destruct (eq_str _ "my_chat"); [|left; reflexivity].
        right. eexists. destruct (post_raises env _ _); reflexivity.
    + left. unfold receive_alert, bind, try_except, qstash_receiver_verify.
      simpl. rewrite Hv, Hjson. reflexivity.
  - left. rewrite (receive_alert_bad_signature _ _ _ _ Hv). reflexivity.
Qed.

Lemma consistent_serve env req w :
  publishes_handles env -> consistent w -> consistent (fst (serve req env w)).
Proof.
  intros Henv Hw. destruct req as [payload | body signature_header]; simpl.
  - pose proof (registry_op_channel_webhook payload env w) as Hreach.
    destruct (channel_webhook payload env w) as [w' r]. simpl in *.
    apply (consistent_reaches env w w' Henv Hw Hreach).
  - pose proof (receive_alert_world body signature_header env w) as Hworld.
    destruct (receive_alert body signature_header env w) as [w' r].
    simpl in *. destruct Hworld as [-> | [text ->]].
    + apply consistent_quiet; [exact Hw | reflexivity].
    + apply consistent_quiet; [|reflexivity].
      apply consistent_quiet; [exact Hw | reflexivity].
Qed.

Lemma consistent_expire key w : consistent w -> consistent (expire key w).
Proof.
  intros Hw. unfold expire. destruct (redis w !! key); [|exact Hw].
  apply consistent_remove; [right; reflexivity | exact Hw].
Qed.

Lemma consistent_initial : consistent initial_world.
Proof.
  constructor; simpl.
  - intros key p Hp. apply prefix_nil_inv in Hp. subst p. simpl. lia.
  - intros key. reflexivity.
  - intros key h ex. rewrite lookup_empty. discriminate.
Qed.

Lemma consistent_run steps : forall w,
  Forall step_ok steps -> consistent w -> consistent (run steps w).
Proof.
  induction steps as [|s steps IH]; intros w Hok Hw; simpl; [exact Hw|].
  inversion Hok as [|s' steps' Hs Hrest]; subst.
  apply IH; [exact Hrest|].
  destruct s as [env req | key]; simpl.
  - apply consistent_serve; assumption.
  - apply consistent_expire, Hw.
Qed.

(** C1. Along every sequence of requests and expiries from the empty
    registry, with a delayed-delivery client that answers non-empty handles,
    at every moment of the call log at most one handle has been written under
    a conversation's key and not removed since, and at the end of each request
    that handle is the one the registry holds: no write ever lands on a live
    entry, because the arm operation removes the entry before it writes and
    the cancel operation deletes it. *)
Theorem registry_holds_at_most_one_handle steps :
  Forall step_ok steps ->
  let w := run steps initial_world in
  forall key,
    (forall p, p `prefix_of` calls w -> (length (outstanding key p) <= 1)%nat) /\
    outstanding key (calls w) = registry_entry w key.
Proof.
  intros Hok w key.
  pose proof (consistent_run steps initial_world Hok consistent_initial) as Hw.
  split.
  - intros p Hp. apply (at_most_one _ Hw key p Hp).
  - apply (log_matches_store _ Hw).
Qed.

(** ** Operating hours *)

Lemma time_le_spec a b : time_le a b = true <-> time_before a b.
Proof.
  unfold time_le, time_before.
  destruct (Z.ltb_spec (hour a) (hour b)); [intuition lia|].
  destruct (Z.ltb_spec (hour b) (hour a)); [intuition (discriminate || lia)|].
  destruct (Z.ltb_spec (minute a) (minute b)); [intuition lia|].
  destruct (Z.ltb_spec (minute b) (minute a)); [intuition (discriminate || lia)|].
  destruct (Z.ltb_spec (second a) (second b)); [intuition lia|].
  destruct (Z.ltb_spec (second b) (second a)); [intuition (discriminate || lia)|].
  rewrite Z.leb_le. intuition lia.
Qed.

Lemma time_le_refl a : time_le a a = true.
Proof. apply time_le_spec. unfold time_before. lia. Qed.

Lemma time_le_trans a b c :
  time_le a b = true -> time_le b c = true -> time_le a c = true.
Proof. rewrite !time_le_spec. unfold time_before. lia. Qed.

(** When [OPERATION_START] is later than [OPERATION_END] (a window meant to
    run over midnight) the operating-hours predicate holds at no time of the
    day, so no customer message ever arms a timer. *)
Theorem reversed_window_is_never_open payload env w :
  time_le (OPERATION_START cfg) (OPERATION_END cfg) = false ->
  operation_hours env = false /\
  handle_customer_message payload env w = (w, Ok tt).
Proof.
  intros Hrev.
  assert (Hh : operation_hours env = false).
  { unfold operation_hours.
    destruct (time_le (OPERATION_START cfg) (now env)) eqn:H1; [|reflexivity].
    destruct (time_le (now env) (OPERATION_END cfg)) eqn:H2; [|reflexivity].
    rewrite (time_le_trans _ _ _ H1 H2) in Hrev. discriminate. }
  split; [exact Hh|]. apply handle_customer_message_outside_hours, Hh.
Qed.

(** The window is closed at both ends: with [OPERATION_START] not later than
    [OPERATION_END], a message arriving exactly at the start or exactly at
    the end of the window is within operating hours. *)
Theorem window_includes_both_ends env :
  time_le (OPERATION_START cfg) (OPERATION_END cfg) = true ->
  now env = OPERATION_START cfg \/ now env = OPERATION_END cfg ->
  operation_hours env = true.
Proof.
  intros Hord [Hnow | Hnow]; unfold operation_hours; rewrite Hnow;
    rewrite Hord, time_le_refl; reflexivity.
Qed.

(** ** The message preview *)

Lemma char_count_take_chars n s : (char_count (take_chars n s) <= n)%nat.
Proof.
  revert n. induction s as [|c s IH]; intros n; simpl; [lia|].
  destruct (is_continuation c) eqn:Hc; simpl.
  - rewrite Hc. apply IH.
  - destruct n as [|n]; simpl; [lia|]. rewrite Hc. specialize (IH n). lia.
Qed.

Lemma take_chars_prefix n s : exists rest, s = take_chars n s +:+ rest.
Proof.
  revert n. induction s as [|c s IH]; intros n; simpl.
  - exists "". reflexivity.
  - destruct (is_continuation c).
    + destruct (IH n) as [rest Hrest]. exists rest.
      change (String c s = String c (take_chars n s +:+ rest)).
      rewrite <- Hrest. reflexivity.
    + destruct n as [|n].
      * exists (String c s). reflexivity.
      * destruct (IH n) as [rest Hrest]. exists rest.
        change (String c s = String c (take_chars n s +:+ rest)).
        rewrite <- Hrest. reflexivity.
Qed.

Lemma take_chars_short n s : (char_count s <= n)%nat -> take_chars n s = s.
Proof.
  revert n. induction s as [|c s IH]; intros n Hn; simpl in *; [reflexivity|].
  destruct (is_continuation c).
  - rewrite (IH n Hn). reflexivity.
  - destruct n as [|n]; [lia|]. rewrite (IH n); [reflexivity | lia].
Qed.

Lemma customer_message_fields_preview top message text cm :
  get_or (JObj []) top "entity" = JObj message ->
  assoc "plainText" message = Some (JStr text) ->
  customer_message_fields (JObj top) = Some cm ->
  exists preview,
    cm_msg_preview cm = JStr preview /\
    (char_count preview <= 50)%nat /\
    (exists rest, text = preview +:+ rest) /\
    ((char_count text <= 50)%nat -> preview = text).
Proof.
  intros Hent Htext Hf. unfold customer_message_fields in Hf.
  destruct (get_or (JObj []) top "chat"); try discriminate.
  rewrite Hent in Hf.
  destruct (get_or (JObj []) top "user"); try discriminate.
  unfold get_or at 1 in Hf. rewrite Htext in Hf.
  assert (Hslice : slice_to 50 (py_or (JStr text) (JStr ""))
                   = Some (JStr (take_chars 50 text))).
  { unfold py_or. simpl. destruct (String.eqb_spec text "") as [->|_];
      reflexivity. }
  rewrite Hslice in Hf. injection Hf as <-. simpl.
  exists (take_chars 50 text). split; [reflexivity|].
  split; [apply char_count_take_chars|].
  split; [apply take_chars_prefix | apply take_chars_short].
Qed.

(** An event that carries no [chat] object is handled as an unassigned
    conversation under the sentinel id [unknown]: within operating hours the
    handler arms the 5-minute timer under the key [timer:unknown], titled
    [unknown]. *)
Theorem event_without_chat_arms_under_unknown top cm env w message_id :
  assoc "chat" top = None ->
  customer_message_fields (JObj top) = Some cm ->
  operation_hours env = true ->
  publish_result env (BASE_URL cfg +:+ "/alert")
    (alert_payload_for "unassigned" cm) (5 * 60) = Some message_id ->
  cm_chat_id cm = JStr "unknown" /\
  cm_chat_title cm = JStr "unknown" /\
  redis (fst (handle_customer_message (JObj top) env w)) !! "timer:unknown"
    = Some (message_id, 360).
Proof.
  intros Hchat Hf Hh Hpub.
  assert (Hcm : cm_chat_id cm = JStr "unknown" /\
                cm_chat_title cm = JStr "unknown" /\ cm_assignee cm = JNull).
  { unfold customer_message_fields in Hf. unfold get_or at 1 in Hf.
    rewrite Hchat in Hf.
    destruct (get_or (JObj []) top "entity"); try discriminate.
    destruct (get_or (JObj []) top "user"); try discriminate.
    destruct (slice_to 50 _); try discriminate.
    injection Hf as <-. repeat split. }
  destruct Hcm as (Hid & Htitle & Hnull).
  split; [exact Hid|]. split; [exact Htitle|].
  rewrite (handle_customer_message_fields _ _ _ _ Hf Hh), Hnull. simpl.
  pose proof (schedule_timer_published (cm_chat_id cm) 300
                (alert_payload_for "unassigned" cm) env w message_id Hpub) as H.
  destruct (schedule_timer _ _ _ env w) as [w' r].
  destruct H as (_ & Hreg & _). simpl. rewrite Hid in Hreg. exact Hreg.
Qed.

(** ** Conversations do not interfere *)

Lemma cancel_existing_timer_frame chat_id env w key :
  key <> timer_key chat_id ->
  redis (fst (cancel_existing_timer chat_id env w)) !! key = redis w !! key.
Proof.
  intros Hkey.
  destruct (cancel_existing_timer_cases chat_id env w)
    as [[-> _]|(h & ex & _ & _ & ->)]; simpl; [reflexivity|].
  apply lookup_delete_ne. congruence.
Qed.

Lemma schedule_timer_frame chat_id delay_seconds alert_payload env w key :
  key <> timer_key chat_id ->
  redis (fst (schedule_timer chat_id delay_seconds alert_payload env w)) !! key
  = redis w !! key.
Proof.
  intros Hkey. rewrite schedule_timer_eq. unfold arm_after_cancel.
  destruct (publish_result env _ _ _); simpl.
  - rewrite lookup_insert_ne by congruence.
    apply cancel_existing_timer_frame, Hkey.
  - apply cancel_existing_timer_frame, Hkey.
Qed.

(** Whatever the event, one request on the inbound endpoint changes the
    registry under at most one key, the timer key of one conversation id:
    every other conversation's entry is as it was. *)
Theorem webhook_changes_at_most_one_key payload env w :
  exists chat_id, forall key,
    key <> timer_key chat_id ->
    redis (fst (channel_webhook payload env w)) !! key = redis w !! key.
Proof.
  destruct (registry_op_channel_webhook payload env w)
    as [| chat_id | chat_id delay_seconds alert_payload].
  - exists JNull. reflexivity.
  - exists chat_id. intros key. apply cancel_existing_timer_frame.
  - exists chat_id. intros key. apply schedule_timer_frame.
Qed.

(** Conversations whose ids are different strings have different timer
    keys. *)
Lemma timer_key_separates_string_ids a b :
  timer_key (JStr a) = timer_key (JStr b) -> a = b.
Proof. unfold timer_key. simpl. intros H. injection H as H. exact H. Qed.

(** Cancel is idempotent: right after a cancel, a second cancel of the same
    conversation only reads the registry; it makes no call on the
    delayed-delivery client and changes nothing. *)
Theorem second_cancel_only_reads chat_id env env' w :
  let w1 := fst (cancel_existing_timer chat_id env w) in
  cancel_existing_timer chat_id env' w1 =
    (log (RedisGet (timer_key chat_id)) w1, Ok tt).
Proof.
  simpl.
  destruct (cancel_existing_timer_cases chat_id env w)
    as [[-> [Hnone|[ex Hex]]]|(h & ex & _ & _ & ->)]; simpl.
  - apply cancel_existing_timer_absent. exact Hnone.
  - apply (cancel_existing_timer_empty_value _ _ _ ex). exact Hex.
  - apply cancel_existing_timer_absent. simpl. apply lookup_delete_eq.
Qed.

(** ** Events that are ignored *)

(** An event of any other type than [chat_message_created] and
    [chat_assigned], and a created message whose sender is neither [user] nor
    [member] (a bot, say), is acknowledged without any call on a
    collaborator: nothing is armed, nothing cancelled. *)
Theorem other_events_change_nothing top event env w :
  get_or (JObj []) top "event" = JObj event ->
  let event_type := get_or (JStr "") event "type" in
  (eq_str event_type "chat_message_created" = false ->
   eq_str event_type "chat_assigned" = false ->
   channel_webhook (JObj top) env w = (w, Ok ok_body)) /\
  (eq_str event_type "chat_message_created" = true ->
   forall entity,
     get_or (JObj []) top "entity" = JObj entity ->
     eq_str (get_or (JStr "") entity "personType") "user" = false ->
     eq_str (get_or (JStr "") entity "personType") "member" = false ->
     channel_webhook (JObj top) env w = (w, Ok ok_body)).
Proof.
  intros Hev event_type. subst event_type. split.
  - intros H1 H2. unfold channel_webhook, bind, py_get, ret. simpl.
    rewrite Hev. simpl. rewrite H1, H2. reflexivity.
  - intros H1 entity Hent Hu Hm.
    unfold channel_webhook, bind, py_get, ret. simpl.
    rewrite Hev. simpl. rewrite H1, Hent. simpl. rewrite Hu, Hm. reflexivity.
Qed.

(** ** What each endpoint calls *)

Lemma cancel_existing_timer_extra chat_id env w :
  exists extra,
    calls (fst (cancel_existing_timer chat_id env w)) = calls w ++ extra /\
    sink_texts extra = [] /\ verified extra = [] /\ scheduled extra = [] /\
    (length (cancelled extra) <= 1)%nat.
Proof.
  destruct (cancel_existing_timer_cases chat_id env w)
    as [[-> _]|(h & ex & _ & _ & ->)]; simpl; eexists;
    (split; [reflexivity|]); simpl; repeat split; lia.
Qed.

Lemma schedule_timer_extra chat_id delay_seconds alert_payload env w :
  exists extra,
    calls (fst (schedule_timer chat_id delay_seconds alert_payload env w))
      = calls w ++ extra /\
    sink_texts extra = [] /\ verified extra = [] /\
    scheduled extra = [(alert_payload, delay_seconds)] /\
    (length (cancelled extra) <= 1)%nat.
Proof.
  rewrite schedule_timer_eq.
  destruct (cancel_existing_timer_extra chat_id env w)
    as (extra & Hcalls & Hsink & Hver & Hsched & Hcan).
  unfold arm_after_cancel.
  destruct (publish_result env _ _ _) as [message_id|]; simpl;
    rewrite Hcalls, <- app_assoc; eexists; (split; [reflexivity|]);
    unfold sink_texts, verified, scheduled, cancelled in *;
    rewrite !omap_app; simpl; rewrite ?Hsink, ?Hver, ?Hsched, ?app_nil_r;
    repeat split; assumption.
Qed.

(** One request on the inbound endpoint never posts to the notification
    sink and never verifies a signature; it schedules at most one delayed
    delivery and asks for at most one cancellation. *)
Theorem webhook_call_budget payload env w :
  exists extra,
    calls (fst (channel_webhook payload env w)) = calls w ++ extra /\
    sink_texts extra = [] /\ verified extra = [] /\
    (length (scheduled extra) <= 1)%nat /\
    (length (cancelled extra) <= 1)%nat.
Proof.
  destruct (registry_op_channel_webhook payload env w)
    as [| chat_id | chat_id delay_seconds alert_payload].
  - exists []. rewrite app_nil_r. repeat split; simpl; lia.
  - destruct (cancel_existing_timer_extra chat_id env w)
      as (extra & Hcalls & Hsink & Hver & Hsched & Hcan).
    exists extra. rewrite Hsched. repeat split; try assumption. simpl. lia.
  - destruct (schedule_timer_extra chat_id delay_seconds alert_payload env w)
      as (extra & Hcalls & Hsink & Hver & Hsched & Hcan).
    exists extra. rewrite Hsched. repeat split; try assumption. simpl. lia.
Qed.

(** The fire callback leaves every timer alone: whatever the request, the
    registry is unchanged (the entry of the conversation that fired stays
    until it expires), no delivery is scheduled or cancelled, and at most one
    message is posted to the sink. *)
Theorem fire_callback_leaves_timers_alone body signature_header env w :
  let w' := fst (receive_alert body signature_header env w) in
  redis w' = redis w /\
  scheduled (calls w') = scheduled (calls w) /\
  cancelled (calls w') = cancelled (calls w) /\
  (length (sink_texts (calls w')) <= length (sink_texts (calls w)) + 1)%nat.
Proof.
  simpl.
  destruct (receive_alert_world body signature_header env w) as [-> | [text ->]];
    simpl; unfold scheduled, cancelled, sink_texts; rewrite !omap_app; simpl;
    rewrite ?app_nil_r, ?length_app; simpl; repeat split; lia.
Qed.

(** A fire callback that passes verification but whose body is not a JSON
    object (it does not parse, or parses to a list, a string, a number, a
    boolean or null) is answered 500, and nothing is posted to the sink. *)
Theorem verified_alert_that_is_no_object_fails_without_dispatch
    body signature_header env w :
  verify_ok env body (default "" signature_header) (BASE_URL cfg +:+ "/alert")
    = true ->
  (forall data, json_loads body <> Some (JObj data)) ->
  let (w', resp) := serve (PostAlert body signature_header) env w in
  resp = Failure 500 /\
  sink_texts (calls w') = sink_texts (calls w) /\
  redis w' = redis w.
Proof.
  intros Hv Hno. unfold serve, receive_alert, bind, try_except,
    qstash_receiver_verify. simpl. rewrite Hv.
  assert (Hsink : sink_texts
                    (calls w ++ [QVerify body (default "" signature_header)
                                   (BASE_URL cfg +:+ "/alert")])
                  = sink_texts (calls w)).
  { rewrite sink_texts_app. simpl. apply app_nil_r. }
  destruct (json_loads body) as [[| | | | |data]|] eqn:Hjson; simpl;
    try (split; [reflexivity|]; split; [exact Hsink | reflexivity]).
  destruct (Hno data eq_refl).
Qed.

(** ** From the armed payload to the alert text *)

Lemma unassigned_text_mentions title name preview :
  let text := unassigned_text title name preview in
  contains (py_str title) text /\ contains (py_str name) text /\
  contains (py_str preview) text /\ contains ("5" +:+ "분째") text.
Proof.
  simpl. unfold unassigned_text. repeat split.
  - exists ("🔴 *미배정 문의 미응답 알림*" +:+ newline +:+ "> 채팅방: "),
      (newline +:+ "> 고객: " +:+ py_str name +:+ newline +:+
       "> 마지막 메시지: " +:+ py_str preview +:+ newline +:+
       "> ⏰ 5분째 미응답 중입니다!").
    rewrite !string_app_assoc. reflexivity.
  - exists ("🔴 *미배정 문의 미응답 알림*" +:+ newline +:+ "> 채팅방: " +:+
            py_str title +:+ newline +:+ "> 고객: "),
      (newline +:+ "> 마지막 메시지: " +:+ py_str preview +:+ newline +:+
       "> ⏰ 5분째 미응답 중입니다!").
    rewrite !string_app_assoc. reflexivity.
  - exists ("🔴 *미배정 문의 미응답 알림*" +:+ newline +:+ "> 채팅방: " +:+
            py_str title +:+ newline +:+ "> 고객: " +:+ py_str name +:+
            newline +:+ "> 마지막 메시지: "),
      (newline +:+ "> ⏰ 5분째 미응답 중입니다!").
    rewrite !string_app_assoc. reflexivity.
  - exists ("🔴 *미배정 문의 미응답 알림*" +:+ newline +:+ "> 채팅방: " +:+
            py_str title +:+ newline +:+ "> 고객: " +:+ py_str name +:+
            newline +:+ "> 마지막 메시지: " +:+ py_str preview +:+ newline +:+
            "> ⏰ "),
      " 미응답 중입니다!".
    rewrite !string_app_assoc. reflexivity.
Qed.

Lemma my_chat_text_mentions title name preview :
  let text := my_chat_text title name preview in
  contains (py_str title) text /\ contains (py_str name) text /\
  contains (py_str preview) text /\ contains ("3" +:+ "분째") text.
Proof.
  simpl. unfold my_chat_text. repeat split.
  - exists ("🟡 *내 문의 미응답 알림*" +:+ newline +:+ "> 채팅방: "),
      (newline +:+ "> 고객: " +:+ py_str name +:+ newline +:+
       "> 마지막 메시지: " +:+ py_str preview +:+ newline +:+
       "> ⏰ 3분째 미응답 중입니다!").
    rewrite !string_app_assoc. reflexivity.
  - exists ("🟡 *내 문의 미응답 알림*" +:+ newline +:+ "> 채팅방: " +:+
            py_str title +:+ newline +:+ "> 고객: "),
      (newline +:+ "> 마지막 메시지: " +:+ py_str preview +:+ newline +:+
       "> ⏰ 3분째 미응답 중입니다!").
    rewrite !string_app_assoc. reflexivity.
  - exists ("🟡 *내 문의 미응답 알림*" +:+ newline +:+ "> 채팅방: " +:+
            py_str title +:+ newline +:+ "> 고객: " +:+ py_str name +:+
            newline +:+ "> 마지막 메시지: "),
      (newline +:+ "> ⏰ 3분째 미응답 중입니다!").
    rewrite !string_app_assoc. reflexivity.
  - exists ("🟡 *내 문의 미응답 알림*" +:+ newline +:+ "> 채팅방: " +:+
            py_str title +:+ newline +:+ "> 고객: " +:+ py_str name +:+
            newline +:+ "> 마지막 메시지: " +:+ py_str preview +:+ newline +:+
            "> ⏰ "),
      " 미응답 중입니다!".
    rewrite !string_app_assoc. reflexivity.
Qed.

(** A fire callback with a valid signature whose body is an alert payload of
    type [my_chat] makes exactly one call on the notification sink; its text
    is the my-chat template, with the title, the customer name and the
    preview of the payload and the duration figure 3. *)
Theorem my_chat_alert_posts_one_message body signature_header env w data :
  verify_ok env body (default "" signature_header) (BASE_URL cfg +:+ "/alert")
    = true ->
  json_loads body = Some (JObj data) ->
  assoc "type" data = Some (JStr "my_chat") ->
  let title := get_or (JStr "알 수 없음") data "chat_title" in
  let name := get_or (JStr "고객") data "customer_name" in
  let preview := get_or (JStr "") data "msg_preview" in
  exists text,
    sink_texts (calls (fst (receive_alert body signature_header env w)))
      = sink_texts (calls w) ++ [text] /\
    text = my_chat_text title name preview /\
    contains (py_str title) text /\ contains (py_str name) text /\
    contains (py_str preview) text /\ contains ("3" +:+ "분째") text.
Proof.
  intros Hv Hjson Htype title name preview.
  rewrite (receive_alert_verified _ _ _ _ _ Hv Hjson).
  unfold get_or at 1. rewrite Htype. simpl.
  unfold get_or at 1. rewrite Htype. simpl.
  fold title name preview.
  exists (my_chat_text title name preview). split.
  - unfold bind, send_slack, ret, log.
    destruct (post_raises env _ _); simpl;
      rewrite !sink_texts_app; simpl; rewrite app_nil_r; reflexivity.
  - split; [reflexivity | apply my_chat_text_mentions].
Qed.

Lemma schedule_timer_scheduled chat_id delay_seconds alert_payload env w :
  scheduled (calls (fst (schedule_timer chat_id delay_seconds alert_payload env w)))
  = scheduled (calls w) ++ [(alert_payload, delay_seconds)].
Proof.
  destruct (schedule_timer_extra chat_id delay_seconds alert_payload env w)
    as (extra & -> & _ & _ & Hsched & _).
  rewrite scheduled_app, Hsched. reflexivity.
Qed.

Lemma list_not_snoc {A} (l : list A) x : l <> l ++ [x].
Proof.
  intros H. apply (f_equal length) in H. rewrite length_app in H.
  simpl in H. lia.
Qed.

(** From arming to firing: when the payload a customer message scheduled is
    later delivered to the fire callback, the one message posted to the sink
    carries the title, customer name and preview read from that customer
    message, and the minutes it reports are the delay the timer was armed
    with (5 for an unassigned conversation, 3 for one's own). *)
Theorem alert_text_reports_the_armed_timer
    payload cm env w alert_payload delay_seconds
    body signature_header env' w2 :
  customer_message_fields payload = Some cm ->
  scheduled (calls (fst (handle_customer_message payload env w)))
    = scheduled (calls w) ++ [(alert_payload, delay_seconds)] ->
  verify_ok env' body (default "" signature_header) (BASE_URL cfg +:+ "/alert")
    = true ->
  json_loads body = Some alert_payload ->
  exists text,
    sink_texts (calls (fst (receive_alert body signature_header env' w2)))
      = sink_texts (calls w2) ++ [text] /\
    contains (py_str (cm_chat_title cm)) text /\
    contains (py_str (cm_customer_name cm)) text /\
    contains (py_str (cm_msg_preview cm)) text /\
    contains (py_str (JInt (delay_seconds / 60)) +:+ "분째") text.
Proof.
  intros Hf Hsched Hv Hjson.
  assert (Hpost : forall text,
            sink_texts (calls (fst (bind (send_slack text)
                                      (fun _ => ret ok_body) env'
                                      (log (QVerify body
                                              (default "" signature_header)
                                              (BASE_URL cfg +:+ "/alert")) w2))))
            = sink_texts (calls w2) ++ [text]).
  { intros text. unfold bind, send_slack, ret, log.
    destruct (post_raises env' _ _); simpl;
      rewrite !sink_texts_app; simpl; rewrite app_nil_r; reflexivity. }
  destruct (operation_hours env) eqn:Hh.
  2: { rewrite (handle_customer_message_outside_hours _ _ _ Hh) in Hsched.
       simpl in Hsched. destruct (list_not_snoc _ _ Hsched). }
  rewrite (handle_customer_message_fields _ _ _ _ Hf Hh) in Hsched.
  destruct (is_none (cm_assignee cm)) eqn:Hnone.
  - rewrite schedule_timer_scheduled in Hsched.
    apply app_inj_tail in Hsched as [_ Heq]. injection Heq as <- <-.
    unfold alert_payload_for, alert_payload_of in Hjson.
    rewrite (receive_alert_verified _ _ _ _ _ Hv Hjson). simpl.
    eexists. split; [apply Hpost|]. apply unassigned_text_mentions.
  - destruct (cm_assignee cm) as [| | | | |a] eqn:Ha;
      try (simpl in Hsched; destruct (list_not_snoc _ _ Hsched)).
    destruct (assigned_to_me (JObj a));
      [|simpl in Hsched; destruct (list_not_snoc _ _ Hsched)].
    rewrite schedule_timer_scheduled in Hsched.
    apply app_inj_tail in Hsched as [_ Heq]. injection Heq as <- <-.
    unfold alert_payload_for, alert_payload_of in Hjson.
    rewrite (receive_alert_verified _ _ _ _ _ Hv Hjson). simpl.
    eexists. split; [apply Hpost|]. apply my_chat_text_mentions.
Qed.


(** ** What a customer message schedules *)

Lemma handle_customer_message_unreadable payload env w :
  customer_message_fields payload = None ->
  fst (handle_customer_message payload env w) = w.
Proof.
  intros Hf.
  unfold handle_customer_message, bind at 1, is_operation_hours.
  destruct (operation_hours env); simpl; [|reflexivity].
  unfold customer_message_fields in Hf.
  destruct payload as [| | | | |top]; try reflexivity.
  unfold bind, py_get, py_slice_to, ret, raise. simpl.
  destruct (get_or (JObj []) top "chat") as [| | | | |chat]; try reflexivity.
  destruct (get_or (JObj []) top "entity") as [| | | | |message];
    destruct (get_or (JObj []) top "user") as [| | | | |user];
    simpl; try reflexivity.
  destruct (slice_to 50 _) as [msg_preview|]; [discriminate | reflexivity].
Qed.

(** The one way a delivery gets scheduled by a customer message. *)
Lemma handle_customer_message_scheduled payload env w body delay :
  scheduled (calls (fst (handle_customer_message payload env w)))
    = scheduled (calls w) ++ [(body, delay)] ->
  exists cm,
    customer_message_fields payload = Some cm /\
    operation_hours env = true /\
    ((cm_assignee cm = JNull /\
      body = alert_payload_for "unassigned" cm /\ delay = 300 /\
      handle_customer_message payload env w =
        schedule_timer (cm_chat_id cm) 300 body env w) \/
     (assigned_to_me (cm_assignee cm) = true /\
      body = alert_payload_for "my_chat" cm /\ delay = 180 /\
      handle_customer_message payload env w =
        schedule_timer (cm_chat_id cm) 180 body env w)).
Proof.
  intros Hsched.
  destruct (operation_hours env) eqn:Hh.
  2: { rewrite (handle_customer_message_outside_hours _ _ _ Hh) in Hsched.
       simpl in Hsched. destruct (list_not_snoc _ _ Hsched). }
  destruct (customer_message_fields payload) as [cm|] eqn:Hf.
  2: { rewrite (handle_customer_message_unreadable _ _ _ Hf) in Hsched.
       destruct (list_not_snoc _ _ Hsched). }
  exists cm. split; [reflexivity|]. split; [reflexivity|].
  pose proof (handle_customer_message_fields _ _ env w Hf Hh) as Heq.
  rewrite Heq in Hsched.
  destruct (cm_assignee cm) as [| | | | |a] eqn:Ha; simpl in *;
    try (destruct (list_not_snoc _ _ Hsched)).
  - rewrite schedule_timer_scheduled in Hsched.
    apply app_inj_tail in Hsched as [_ Hb]. injection Hb as <- <-.
    left. auto.
  - destruct (eq_str (get_or JNull a "id") (MY_MEMBER_ID cfg)) eqn:Hme;
      [|simpl in Hsched; destruct (list_not_snoc _ _ Hsched)].
    rewrite schedule_timer_scheduled in Hsched.
    apply app_inj_tail in Hsched as [_ Hb]. injection Hb as <- <-.
    right. auto.
Qed.

(** The preview in the payload that a customer message schedules is the
    beginning of the customer's message text, cut after at most 50
    characters; a text of 50 characters or fewer is carried whole. *)
Theorem preview_is_text_cut_at_fifty_characters
    top message text env w fields delay :
  get_or (JObj []) top "entity" = JObj message ->
  assoc "plainText" message = Some (JStr text) ->
  scheduled (calls (fst (handle_customer_message (JObj top) env w)))
    = scheduled (calls w) ++ [(JObj fields, delay)] ->
  exists preview,
    assoc "msg_preview" fields = Some (JStr preview) /\
    (char_count preview <= 50)%nat /\
    (exists rest, text = preview +:+ rest) /\
    ((char_count text <= 50)%nat -> preview = text).
Proof.
  intros Hent Htext Hsched.
  destruct (handle_customer_message_scheduled _ _ _ _ _ Hsched)
    as (cm & Hf & _ & Hbranch).
  destruct (customer_message_fields_preview top message text cm Hent Htext Hf)
    as (preview & Hprev & Hfacts).
  exists preview. split; [|exact Hfacts].
  destruct Hbranch as [(_ & Hbody & _) | (_ & Hbody & _)];
    unfold alert_payload_for, alert_payload_of in Hbody;
    injection Hbody as ->; simpl; rewrite Hprev; reflexivity.
Qed.

(** ** A reply after a customer message *)

(** The debounce at work: once a customer message has armed a timer (on
    either branch, unassigned or one's own) and the schedule call has
    answered handle [h], a staff reply (or a reassignment) in the same
    conversation asks the delayed-delivery client to cancel exactly [h] and
    leaves no entry for the conversation, whether or not that cancel call
    succeeds. *)
Theorem reply_cancels_the_armed_timer
    payload cm env w body delay h reply env2 :
  customer_message_fields payload = Some cm ->
  scheduled (calls (fst (handle_customer_message payload env w)))
    = scheduled (calls w) ++ [(body, delay)] ->
  publish_result env (BASE_URL cfg +:+ "/alert") body delay = Some h ->
  h <> "" ->
  human_activity_chat_id reply = Some (cm_chat_id cm) ->
  truthy (cm_chat_id cm) = true ->
  let w1 := fst (handle_customer_message payload env w) in
  let w2 := fst (channel_webhook reply env2 w1) in
  redis w2 !! ("timer:" +:+ py_str (cm_chat_id cm)) = None /\
  cancelled (calls w2) = cancelled (calls w1) ++ [h].
Proof.
  intros Hf Hsched Hpub Hne Hreply Htruthy. simpl.
  destruct (handle_customer_message_scheduled _ _ _ _ _ Hsched)
    as (cm' & Hf' & _ & Hbranch).
  rewrite Hf in Hf'. injection Hf' as <-.
  assert (Hreg : exists ex,
            redis (fst (handle_customer_message payload env w))
              !! timer_key (cm_chat_id cm) = Some (h, ex)).
  { destruct Hbranch as [(_ & _ & -> & ->) | (_ & _ & -> & ->)];
      eexists;
      match goal with
      | |- context [schedule_timer ?c ?d ?b env w] =>
          pose proof (schedule_timer_published c d b env w h Hpub) as H;
          destruct (schedule_timer c d b env w) as [w' r]; apply H
      end. }
  destruct Hreg as [ex Hreg].
  set (w1 := fst (handle_customer_message payload env w)) in *.
  rewrite (channel_webhook_human_activity _ _ _ _ Hreply), Htruthy.
  rewrite (cancel_existing_timer_recorded _ _ _ _ _ Hreg Hne). simpl.
  split; [apply lookup_delete_eq|].
  unfold cancelled. rewrite omap_app. reflexivity.
Qed.

(** ** Which inbound requests are acknowledged *)

Lemma handle_customer_message_unreadable_raises payload env w :
  customer_message_fields payload = None ->
  operation_hours env = true ->
  exists e, handle_customer_message payload env w = (w, Raise e) /\
            respond (Raise e) = Failure 500.
Proof.
  intros Hf Hh.
  unfold handle_customer_message, bind at 1, is_operation_hours.
  rewrite Hh. simpl.
  unfold customer_message_fields in Hf.
  destruct payload as [| | | | |top];
    try (eexists; split; reflexivity).
  unfold bind, py_get, py_slice_to, ret, raise. simpl.
  destruct (get_or (JObj []) top "chat") as [| | | | |chat];
    try (eexists; split; reflexivity).
  destruct (get_or (JObj []) top "entity") as [| | | | |message];
    destruct (get_or (JObj []) top "user") as [| | | | |user];
    simpl; try (eexists; split; reflexivity).
  destruct (slice_to 50 _) as [msg_preview|]; [discriminate|].
  eexists; split; reflexivity.
Qed.

Lemma cancel_for_chat_answers top env w :
  match chat_id_or_empty top with
  | Some _ => snd (cancel_for_chat (JObj top) env w) = Ok tt
  | None => snd (cancel_for_chat (JObj top) env w) = Raise AttributeError
  end.
Proof.
  unfold chat_id_or_empty, cancel_for_chat, bind, py_get, ret, raise. simpl.
  destruct (get_or (JObj []) top "chat") as [| | | | |chat]; try reflexivity.
  simpl. destruct (truthy _); [|reflexivity].
  pose proof (cancel_existing_timer_returns (get_or (JStr "") chat "id") env w).
  destruct (cancel_existing_timer _ env w). assumption.
Qed.

Lemma handle_customer_message_answers payload env w :
  let readable :=
    if operation_hours env then
      match customer_message_fields payload with
      | Some cm =>
          match cm_assignee cm with
          | JNull | JObj _ => true
          | _ => false
          end
      | None => false
      end
    else true in
  (readable = true ->
   (forall url body delay, publish_result env url body delay <> None) ->
   snd (handle_customer_message payload env w) = Ok tt) /\
  (readable = false ->
   exists e, snd (handle_customer_message payload env w) = Raise e /\
             respond (Raise e) = Failure 500).
Proof.
  simpl. destruct (operation_hours env) eqn:Hh.
  2: { rewrite (handle_customer_message_outside_hours _ _ _ Hh).
       split; [reflexivity | discriminate]. }
  destruct (customer_message_fields payload) as [cm|] eqn:Hf.
  2: { split; [discriminate|]. intros _.
       destruct (handle_customer_message_unreadable_raises _ env w Hf Hh)
         as (e & -> & He). exists e. split; [reflexivity | exact He]. }
  rewrite (handle_customer_message_fields _ _ _ _ Hf Hh).
  destruct (cm_assignee cm) as [| | | | |a]; simpl;
    try (split; [discriminate | intros _; eexists; split; reflexivity]).
  - split; [|discriminate]. intros _ Hpub. apply schedule_timer_returns, Hpub.
  - split; [|discriminate]. intros _ Hpub.
    destruct (eq_str _ _); [apply schedule_timer_returns, Hpub | reflexivity].
Qed.

(** The answer of the inbound endpoint when neither the registry nor the
    schedule call raises: success exactly when the reads succeed. *)
Lemma channel_webhook_answers payload env w :
  (forall url body delay, publish_result env url body delay <> None) ->
  respond (snd (channel_webhook payload env w)) =
    if reads_succeed (operation_hours env) payload
    then Success ok_body else Failure 500.
Proof.
  intros Hpub.
  destruct payload as [| | | | |top]; try reflexivity.
  pose proof (cancel_for_chat_answers top env w) as Hcancel.
  pose proof (handle_customer_message_answers (JObj top) env w) as Hcm.
  cbv zeta in Hcm.
  unfold reads_succeed.
  set (readable := if operation_hours env then
                     match customer_message_fields (JObj top) with
                     | Some cm => match cm_assignee cm with
                                  | JNull | JObj _ => true
                                  | _ => false
                                  end
                     | None => false
                     end
                   else true) in *.
  clearbody readable.
  assert (Hcm' : respond
                   (snd (bind (handle_customer_message (JObj top))
                           (fun _ => ret ok_body) env w))
                 = if readable then Success ok_body else Failure 500).
  { unfold bind. destruct Hcm as [Hok Hbad].
    destruct (handle_customer_message (JObj top) env w) as [w' r].
    simpl in *. destruct readable.
    - rewrite (Hok eq_refl Hpub). reflexivity.
    - destruct (Hbad eq_refl) as (e & -> & He). exact He. }
  assert (Hcancel' : respond
                       (snd (bind (cancel_for_chat (JObj top))
                               (fun _ => ret ok_body) env w))
                     = match chat_id_or_empty top with
                       | Some _ => Success ok_body
                       | None => Failure 500
                       end).
  { unfold bind.
    destruct (cancel_for_chat (JObj top) env w) as [w' r]. simpl in *.
    destruct (chat_id_or_empty top); subst r; reflexivity. }
  clear Hcm Hcancel.
  unfold channel_webhook.
  unfold bind at 1, py_get at 1, ret at 1. simpl.
  destruct (get_or (JObj []) top "event") as [| | | | |event]; try reflexivity.
  unfold bind at 1, py_get at 1, ret at 1. simpl.
  destruct (eq_str (get_or (JStr "") event "type") "chat_message_created").
  - destruct (get_or (JObj []) top "entity") as [| | | | |entity];
      try reflexivity.
    change (respond
              (snd (bind
                      (if eq_str (get_or (JStr "") entity "personType") "user"
                       then handle_customer_message (JObj top)
                       else if eq_str (get_or (JStr "") entity "personType")
                                 "member"
                            then cancel_for_chat (JObj top)
                            else ret tt)
                      (fun _ => ret ok_body) env w))
            = if (if eq_str (get_or (JStr "") entity "personType") "user"
                  then readable
                  else if eq_str (get_or (JStr "") entity "personType") "member"
                       then match chat_id_or_empty top with
                            | Some _ => true
                            | None => false
                            end
                       else true)
              then Success ok_body else Failure 500).
    destruct (eq_str (get_or (JStr "") entity "personType") "user");
      [exact Hcm'|].
    destruct (eq_str (get_or (JStr "") entity "personType") "member").
    + rewrite Hcancel'. destruct (chat_id_or_empty top); reflexivity.
    + reflexivity.
  - destruct (eq_str (get_or (JStr "") event "type") "chat_assigned").
    + rewrite Hcancel'. destruct (chat_id_or_empty top); reflexivity.
    + reflexivity.
Qed.

(** *** With no fault, the fallible handlers are the handlers *)

Lemma agrees_refl {A} (m : M A) : agrees m m.
Proof. intros env w. reflexivity. Qed.

Lemma agrees_bind {A B} (m m' : M A) (k k' : A -> M B) :
  agrees m m' -> (forall a, agrees (k a) (k' a)) ->
  agrees (bind m k) (bind m' k').
Proof.
  intros Hm Hk env w. unfold bind. rewrite Hm.
  destruct (m' env w) as [w' [a|e]]; [apply Hk | reflexivity].
Qed.

Section NoFault.

Variable faults : call -> bool.
Hypothesis no_fault : forall c, faults c = false.

Lemma fallible_redis_get_reliable key :
  agrees (fallible_redis_get faults key) (redis_get key).
Proof. intros env w. unfold fallible_redis_get. rewrite no_fault. reflexivity. Qed.

Lemma fallible_redis_delete_reliable key :
  agrees (fallible_redis_delete faults key) (redis_delete key).
Proof.
  intros env w. unfold fallible_redis_delete. rewrite no_fault. reflexivity.
Qed.

Lemma fallible_redis_set_reliable key value ex :
  agrees (fallible_redis_set faults key value ex) (redis_set key value ex).
Proof. intros env w. unfold fallible_redis_set. rewrite no_fault. reflexivity. Qed.

Lemma fallible_cancel_existing_timer_reliable chat_id :
  agrees (fallible_cancel_existing_timer faults chat_id)
         (cancel_existing_timer chat_id).
Proof.
  unfold fallible_cancel_existing_timer, cancel_existing_timer.
  apply agrees_bind; [apply fallible_redis_get_reliable|].
  intros [id|]; [|apply agrees_refl].
  destruct (negb (String.eqb id "")); [|apply agrees_refl].
  apply agrees_bind; [apply agrees_refl|].
  intros _. apply fallible_redis_delete_reliable.
Qed.

Lemma fallible_schedule_timer_reliable chat_id delay_seconds alert_payload :
  agrees (fallible_schedule_timer faults chat_id delay_seconds alert_payload)
         (schedule_timer chat_id delay_seconds alert_payload).
Proof.
  unfold fallible_schedule_timer, schedule_timer.
  apply agrees_bind; [apply fallible_cancel_existing_timer_reliable|].
  intros _. apply agrees_bind; [apply agrees_refl|].
  intros message_id. apply fallible_redis_set_reliable.
Qed.

Lemma fallible_handle_customer_message_reliable payload :
  agrees (fallible_handle_customer_message faults payload)
         (handle_customer_message payload).
Proof.
  unfold fallible_handle_customer_message, handle_customer_message. cbv zeta.
  apply agrees_bind; [apply agrees_refl|]. intros in_hours.
  destruct (negb in_hours); [apply agrees_refl|].
  do 9 (apply agrees_bind; [apply agrees_refl|]; intros ?).
  destruct (is_none _); [apply fallible_schedule_timer_reliable|].
  apply agrees_bind; [apply agrees_refl|]. intros assignee_id.
  destruct (eq_str _ _);
    [apply fallible_schedule_timer_reliable | apply agrees_refl].
Qed.

Lemma fallible_cancel_for_chat_reliable payload :
  agrees (fallible_cancel_for_chat faults payload) (cancel_for_chat payload).
Proof.
  unfold fallible_cancel_for_chat, cancel_for_chat.
  do 2 (apply agrees_bind; [apply agrees_refl|]; intros ?).
  destruct (truthy _);
    [apply fallible_cancel_existing_timer_reliable | apply agrees_refl].
Qed.

Lemma fallible_channel_webhook_reliable payload :
  agrees (fallible_channel_webhook faults payload) (channel_webhook payload).
Proof.
  unfold fallible_channel_webhook, channel_webhook.
  apply agrees_bind; [apply agrees_refl|]. intros event.
  apply agrees_bind; [apply agrees_refl|]. intros event_type.
  apply agrees_bind; [|intros _; apply agrees_refl].
  destruct (eq_str event_type "chat_message_created").
  - apply agrees_bind; [apply agrees_refl|]. intros entity.
    apply agrees_bind; [apply agrees_refl|]. intros sender_type.
    destruct (eq_str sender_type "user");
      [apply fallible_handle_customer_message_reliable|].
    destruct (eq_str sender_type "member");
      [apply fallible_cancel_for_chat_reliable | apply agrees_refl].
  - destruct (eq_str event_type "chat_assigned");
      [apply fallible_cancel_for_chat_reliable | apply agrees_refl].
Qed.

End NoFault.

(** C9, as the program has it. When no registry call and no delayed-delivery
    schedule call raises, an inbound event whose body parsed as JSON is
    acknowledged with success exactly when the reads on the path the event
    takes succeed (the body and [event] are objects, and so are the nested
    values that path calls [get] on), whatever the event type, the
    classification and the timer decision; otherwise it is answered 500. *)
Theorem webhook_acknowledges_unless_a_call_raises faults payload env w :
  (forall c, faults c = false) ->
  (forall url body delay, publish_result env url body delay <> None) ->
  snd (fallible_post_webhook faults payload env w) =
    if reads_succeed (operation_hours env) payload
    then Success ok_body else Failure 500.
Proof.
  intros Hfaults Hpub. unfold fallible_post_webhook.
  rewrite (fallible_channel_webhook_reliable faults Hfaults payload env w).
  rewrite <- (channel_webhook_answers payload env w Hpub).
  destruct (channel_webhook payload env w) as [w' r]. reflexivity.
Qed.

End Program.

(** ** The statements at work on the sample *)

Import Sample.

Abbreviation sample_handle := (handle_customer_message repr_container cfg) (only parsing).
Abbreviation sample_serve := (serve repr_container json_loads cfg) (only parsing).
Abbreviation sample_run := (run repr_container json_loads cfg) (only parsing).

(** Two customer messages, a staff reply and an expiry on conversation c1. *)
Lemma registry_holds_at_most_one_handle_witness :
  let w := sample_run
             [Serve (env noon "msg_1") (PostWebhookChannel (customer_event unassigned_chat));
              Serve (env noon "msg_2") (PostWebhookChannel (customer_event my_chat));
              Serve env_cancel_raises (PostWebhookChannel (member_event my_chat));
              Serve env_publish_raises (PostWebhookChannel (customer_event unassigned_chat));
              Expire "timer:c1"]
             initial_world in
  (forall p, p `prefix_of` calls w ->
     (length (outstanding "timer:c1" p) <= 1)%nat) /\
  outstanding "timer:c1" (calls w) = registry_entry w "timer:c1".
Proof.
  apply (registry_holds_at_most_one_handle repr_container json_loads cfg).
  repeat constructor; intros url body delay H; discriminate H.
Defined.

Lemma unassigned_customer_message_arms_five_minutes_witness :
  exists cm,
    customer_message_fields (customer_event unassigned_chat) = Some cm /\
    redis (fst (sample_handle (customer_event unassigned_chat)
                  (env noon "msg_1") initial_world))
      !! "timer:c1" = Some ("msg_1", 360) /\
    sample_handle (customer_event unassigned_chat)
      (env late_evening "msg_1") initial_world = (initial_world, Ok tt).
Proof.
  eexists. split; [reflexivity|].
  destruct (unassigned_customer_message_arms_five_minutes repr_container cfg
              (customer_event unassigned_chat) _ (env noon "msg_1")
              initial_world eq_refl eq_refl) as [Hin _].
  destruct (unassigned_customer_message_arms_five_minutes repr_container cfg
              (customer_event unassigned_chat) _ (env late_evening "msg_1")
              initial_world eq_refl eq_refl) as [_ Hout].
  specialize (Hin eq_refl "msg_1" eq_refl).
  split; [|exact (Hout eq_refl)].
  destruct (sample_handle (customer_event unassigned_chat) (env noon "msg_1")
              initial_world) as [w' r].
  exact (proj2 (proj2 Hin)).
Defined.

Lemma assigned_customer_message_arms_three_minutes_or_nothing_witness :
  redis (fst (sample_handle (customer_event my_chat) (env noon "msg_1")
                initial_world))
    !! "timer:c1" = Some ("msg_1", 240) /\
  fst (sample_handle (customer_event colleague_chat) (env noon "msg_1")
         armed_world) = armed_world.
Proof.
  destruct (assigned_customer_message_arms_three_minutes_or_nothing
              repr_container cfg (customer_event my_chat) _ (env noon "msg_1")
              initial_world eq_refl eq_refl) as [Hme _].
  destruct (assigned_customer_message_arms_three_minutes_or_nothing
              repr_container cfg (customer_event colleague_chat) _
              (env noon "msg_1") armed_world eq_refl eq_refl) as [_ Hother].
  specialize (Hme eq_refl eq_refl "msg_1" eq_refl).
  split; [|exact (proj1 (Hother eq_refl))].
  destruct (sample_handle (customer_event my_chat) (env noon "msg_1")
              initial_world) as [w' r].
  exact (proj2 (proj2 Hme)).
Defined.

Lemma human_activity_cancels_when_id_present_witness :
  let w' := fst (channel_webhook repr_container cfg (member_event my_chat)
                   env_cancel_raises armed_world) in
  redis w' !! "timer:c1" = None /\
  calls w' = [RedisGet "timer:c1"; QCancel "msg_1"; RedisDelete "timer:c1"] /\
  snd (channel_webhook repr_container cfg (assigned_event my_chat)
         (env noon "msg_1") initial_world) = Ok ok_body.
Proof.
  assert (Harmed : forall ex : Z,
             redis armed_world !! timer_key repr_container (JStr "c1")
             <> Some ("", ex)).
  { intros ex H. vm_compute in H. discriminate H. }
  assert (Hinit : forall ex : Z,
             redis initial_world !! timer_key repr_container (JStr "c1")
             <> Some ("", ex)).
  { intros ex H. vm_compute in H. discriminate H. }
  pose proof (human_activity_cancels_when_id_present repr_container cfg
                (member_event my_chat) (JStr "c1") env_cancel_raises armed_world
                eq_refl eq_refl Harmed) as Hmember.
  pose proof (human_activity_cancels_when_id_present repr_container cfg
                (assigned_event my_chat) (JStr "c1") (env noon "msg_1")
                initial_world eq_refl eq_refl Hinit) as Hassigned.
  split; [|split].
  - destruct (channel_webhook repr_container cfg (member_event my_chat)
                env_cancel_raises armed_world) as [w' r].
    exact (proj1 (proj2 Hmember)).
  - destruct (channel_webhook repr_container cfg (member_event my_chat)
                env_cancel_raises armed_world) as [w' r].
    exact (proj1 (proj2 (proj2 Hmember)) "msg_1" 360 eq_refl).
  - destruct (channel_webhook repr_container cfg (assigned_event my_chat)
                (env noon "msg_1") initial_world) as [w' r].
    exact (proj1 Hassigned).
Defined.

(** The guard [if chat_id:] at work: a timer armed for a conversation whose
    id is the empty string, or armed under the sentinel [unknown] because the
    event carried no id, survives the staff reply in the same conversation. *)
Lemma human_activity_without_id_keeps_timer :
  (let w := sample_run
              [Serve (env noon "msg_1")
                 (PostWebhookChannel (customer_event [("id", JStr "")]));
               Serve (env noon "msg_2")
                 (PostWebhookChannel (member_event [("id", JStr "")]))]
              initial_world in
   human_activity_chat_id (member_event [("id", JStr "")]) = Some (JStr "") /\
   redis w !! timer_key repr_container (JStr "") = Some ("msg_1", 360)) /\
  (let w := sample_run
              [Serve (env noon "msg_1") (PostWebhookChannel (customer_event []));
               Serve (env noon "msg_2") (PostWebhookChannel (member_event []))]
              initial_world in
   customer_message_fields (customer_event []) <> None /\
   redis w !! timer_key repr_container (JStr "unknown") = Some ("msg_1", 360)).
Proof.
  split; split; try reflexivity.
  intros H. discriminate H.
Qed.

Lemma rearm_cancels_prior_then_stores_with_ttl_witness :
  let (w', r) := schedule_timer repr_container cfg (JStr "c1") 300
                   (JObj (alert_data "unassigned")) env_cancel_raises
                   armed_world in
  r = Ok tt /\
  calls w' = [RedisGet "timer:c1"; QCancel "msg_1"; RedisDelete "timer:c1";
              QPublish "https://alerts.example/alert"
                (JObj (alert_data "unassigned")) 300;
              RedisSet "timer:c1" "msg_2" 360] /\
  redis w' !! "timer:c1" = Some ("msg_2", 360).
Proof.
  assert (Hh : "msg_1" <> "") by discriminate.
  pose proof (rearm_cancels_prior_then_stores_with_ttl repr_container cfg
                (JStr "c1") 300 (JObj (alert_data "unassigned"))
                env_cancel_raises armed_world "msg_1" 360 eq_refl Hh) as H.
  cbv zeta in H.
  destruct (schedule_timer repr_container cfg (JStr "c1") 300
              (JObj (alert_data "unassigned")) env_cancel_raises armed_world)
    as [w' r].
  destruct H as (_ & _ & tail & Hcalls & Hr & Htail & Hreg & _).
  subst tail. split; [exact Hr|]. split; [exact Hcalls | exact Hreg].
Defined.

Lemma cancel_deletes_entry_despite_upstream_failure_witness :
  cancel_raises env_cancel_raises "msg_1" = true /\
  (let (w', r) := cancel_existing_timer repr_container (JStr "c1")
                    env_cancel_raises armed_world in
   r = Ok tt /\ redis w' !! "timer:c1" = None).
Proof.
  split; [reflexivity|].
  assert (Hh : "msg_1" <> "") by discriminate.
  pose proof (cancel_deletes_entry_despite_upstream_failure repr_container
                (JStr "c1") env_cancel_raises armed_world "msg_1" 360
                eq_refl Hh) as H.
  destruct (cancel_existing_timer repr_container (JStr "c1") env_cancel_raises
              armed_world) as [w' r].
  destruct H as (Hr & Hnone & _). split; assumption.
Defined.

Lemma invalid_signature_rejected_without_dispatch_witness :
  let (w', resp) := sample_serve (PostAlert alert_body (Some "forged"))
                      env_bad_signature armed_world in
  resp = Failure 401 /\ sink_texts (calls w') = [] /\
  redis w' = redis armed_world.
Proof.
  pose proof (invalid_signature_rejected_without_dispatch repr_container
                json_loads cfg alert_body (Some "forged") env_bad_signature
                armed_world eq_refl) as H.
  destruct (sample_serve (PostAlert alert_body (Some "forged"))
              env_bad_signature armed_world) as [w' resp].
  destruct H as (Hresp & Hsink & Hredis & _).
  split; [exact Hresp|]. split; [exact Hsink | exact Hredis].
Defined.

Lemma unassigned_alert_posts_one_message_witness :
  let (w', _) := sample_serve (PostAlert alert_body (Some "v1=signed"))
                   (env noon "msg_1") initial_world in
  exists text,
    sink_texts (calls w') = [text] /\
    contains "Order 4471" text /\ contains "Kim" text /\
    contains "Where is my order?" text /\ contains "5" text.
Proof.
  pose proof (unassigned_alert_posts_one_message repr_container json_loads cfg
                alert_body (Some "v1=signed") (env noon "msg_1") initial_world
                (alert_data "unassigned") "Order 4471" "Kim"
                "Where is my order?" eq_refl eq_refl eq_refl eq_refl eq_refl
                eq_refl) as H.
  destruct (sample_serve (PostAlert alert_body (Some "v1=signed"))
              (env noon "msg_1") initial_world) as [w' resp].
  destruct H as (text & Hsink & _ & Hcontains).
  exists text. split; [exact Hsink | exact Hcontains].
Defined.

Lemma verified_alert_acknowledged_unless_sink_raises_witness :
  snd (sample_serve (PostAlert alert_body None) (env noon "msg_1")
         initial_world) = Success ok_body /\
  snd (sample_serve (PostAlert unknown_body None) env_sink_raises
         initial_world) = Success ok_body /\
  sink_texts (calls (fst (sample_serve (PostAlert unknown_body None)
                            env_sink_raises initial_world))) = [].
Proof.
  pose proof (verified_alert_acknowledged_unless_sink_raises repr_container
                json_loads cfg alert_body None (env noon "msg_1") initial_world
                (alert_data "unassigned") eq_refl eq_refl) as Hknown.
  pose proof (verified_alert_acknowledged_unless_sink_raises repr_container
                json_loads cfg unknown_body None env_sink_raises initial_world
                (alert_data "escalated") eq_refl eq_refl) as Hunknown.
  cbv zeta in Hknown, Hunknown.
  split.
  - destruct (sample_serve (PostAlert alert_body None) (env noon "msg_1")
                initial_world) as [w' resp].
    exact (proj2 Hknown (fun _ => eq_refl)).
  - destruct (sample_serve (PostAlert unknown_body None) env_sink_raises
                initial_world) as [w' resp].
    exact (proj1 Hunknown eq_refl eq_refl).
Defined.

(** A verified, well-formed alert whose post to the sink fails in transit:
    the exception is not caught and the request is answered 500, after the
    one call on the sink. *)
Lemma verified_alert_fails_when_sink_raises :
  let (w', resp) := sample_serve (PostAlert alert_body (Some "v1=signed"))
                      env_sink_raises initial_world in
  verify_ok env_sink_raises alert_body "v1=signed"
    (BASE_URL cfg +:+ "/alert") = true /\
  json_loads alert_body = Some (JObj (alert_data "unassigned")) /\
  resp = Failure 500 /\
  length (sink_texts (calls w')) = 1%nat.
Proof. repeat split. Qed.

(** Four requests whose body parses as JSON and which are answered 500: a
    customer message whose schedule call raises, a body that is a JSON list,
    an event whose [event] field is a string, and a staff reply during which
    the registry read raises. *)
Lemma webhook_fails_on_schedule_error_or_wrong_shape :
  snd (sample_serve (PostWebhookChannel (customer_event unassigned_chat))
         env_publish_raises initial_world) = Failure 500 /\
  snd (sample_serve (PostWebhookChannel (JArr []))
         (env noon "msg_1") initial_world) = Failure 500 /\
  snd (sample_serve (PostWebhookChannel (JObj [("event", JStr "ping")]))
         (env noon "msg_1") initial_world) = Failure 500 /\
  snd (fallible_post_webhook repr_container cfg reads_raise
         (member_event my_chat) (env noon "msg_1") armed_world) = Failure 500.
Proof. repeat split. Qed.

Lemma webhook_acknowledges_unless_a_call_raises_witness :
  snd (fallible_post_webhook repr_container cfg (fun _ => false)
         (customer_event unassigned_chat) (env noon "msg_1") armed_world)
    = Success ok_body /\
  snd (fallible_post_webhook repr_container cfg (fun _ => false)
         assigned_with_odd_user env_cancel_raises armed_world)
    = Success ok_body /\
  snd (fallible_post_webhook repr_container cfg (fun _ => false)
         (customer_event [("id", JInt 7); ("assignee", JStr "bob")])
         (env late_evening "msg_1") initial_world)
    = Success ok_body /\
  snd (fallible_post_webhook repr_container cfg (fun _ => false)
         assigned_with_odd_chat (env noon "msg_1") armed_world)
    = Failure 500.
Proof.
  assert (Hpub : forall t m url body delay,
             publish_result (env t m) url body delay <> None)
    by (intros t m url body delay H; discriminate H).
  assert (Hpub' : forall url body delay,
             publish_result env_cancel_raises url body delay <> None)
    by (intros url body delay H; discriminate H).
  split; [|split; [|split]].
  - apply (webhook_acknowledges_unless_a_call_raises repr_container cfg
             (fun _ => false) (customer_event unassigned_chat)
             (env noon "msg_1") armed_world (fun _ => eq_refl)
             (Hpub noon "msg_1")).
  - apply (webhook_acknowledges_unless_a_call_raises repr_container cfg
             (fun _ => false) assigned_with_odd_user env_cancel_raises
             armed_world (fun _ => eq_refl) Hpub').
  - apply (webhook_acknowledges_unless_a_call_raises repr_container cfg
             (fun _ => false)
             (customer_event [("id", JInt 7); ("assignee", JStr "bob")])
             (env late_evening "msg_1") initial_world (fun _ => eq_refl)
             (Hpub late_evening "msg_1")).
  - apply (webhook_acknowledges_unless_a_call_raises repr_container cfg
             (fun _ => false) assigned_with_odd_chat (env noon "msg_1")
             armed_world (fun _ => eq_refl) (Hpub noon "msg_1")).
Defined.

(** ** Further statements at work on the sample *)

Lemma reversed_window_is_never_open_witness :
  operation_hours overnight_cfg (env (mk_time 23 0 0 0) "msg_1") = false /\
  handle_customer_message repr_container overnight_cfg
    (customer_event unassigned_chat) (env (mk_time 23 0 0 0) "msg_1")
    initial_world = (initial_world, Ok tt).
Proof.
  apply (reversed_window_is_never_open repr_container overnight_cfg
           (customer_event unassigned_chat) (env (mk_time 23 0 0 0) "msg_1")
           initial_world eq_refl).
Defined.

Lemma window_includes_both_ends_witness :
  operation_hours cfg (env (mk_time 9 0 0 0) "msg_1") = true /\
  operation_hours cfg (env (mk_time 18 0 0 0) "msg_1") = true.
Proof.
  split.
  - apply (window_includes_both_ends cfg (env (mk_time 9 0 0 0) "msg_1")
             eq_refl (or_introl eq_refl)).
  - apply (window_includes_both_ends cfg (env (mk_time 18 0 0 0) "msg_1")
             eq_refl (or_intror eq_refl)).
Defined.

Lemma preview_is_text_cut_at_fifty_characters_witness :
  exists fields preview,
    scheduled (calls (fst (sample_handle (customer_event unassigned_chat)
                             (env noon "msg_1") initial_world)))
      = [(JObj fields, 300)] /\
    assoc "msg_preview" fields = Some (JStr preview) /\
    preview = "Where is my order?".
Proof.
  eexists.
  destruct (preview_is_text_cut_at_fifty_characters repr_container cfg
              [("event", JObj [("type", JStr "chat_message_created")]);
               ("entity", JObj [("personType", JStr "user");
                                ("plainText", JStr "Where is my order?")]);
               ("chat", JObj unassigned_chat);
               ("user", JObj [("name", JStr "Kim")])]
              _ "Where is my order?" (env noon "msg_1") initial_world _ 300
              eq_refl eq_refl eq_refl)
    as (preview & Hprev & _ & _ & Hshort).
  exists preview. split; [reflexivity|]. split; [exact Hprev|].
  apply Hshort. vm_compute. lia.
Defined.

Lemma event_without_chat_arms_under_unknown_witness :
  redis (fst (sample_handle (JObj chatless_event) (env noon "msg_1")
                initial_world))
    !! "timer:unknown" = Some ("msg_1", 360).
Proof.
  apply (event_without_chat_arms_under_unknown repr_container cfg
           chatless_event _ (env noon "msg_1") initial_world "msg_1"
           eq_refl eq_refl eq_refl eq_refl).
Defined.

Lemma other_events_change_nothing_witness :
  channel_webhook repr_container cfg
    (JObj [("event", JObj [("type", JStr "chat_closed")]);
           ("chat", JObj [("id", JStr "c1")])])
    (env noon "msg_1") armed_world = (armed_world, Ok ok_body) /\
  channel_webhook repr_container cfg (JObj bot_event) (env noon "msg_1")
    armed_world = (armed_world, Ok ok_body).
Proof.
  split.
  - apply (other_events_change_nothing repr_container cfg
             [("event", JObj [("type", JStr "chat_closed")]);
              ("chat", JObj [("id", JStr "c1")])]
             _ (env noon "msg_1") armed_world eq_refl); reflexivity.
  - apply (proj2 (other_events_change_nothing repr_container cfg bot_event
                    _ (env noon "msg_1") armed_world eq_refl) eq_refl
             _ eq_refl eq_refl eq_refl).
Defined.

Lemma verified_alert_that_is_no_object_fails_without_dispatch_witness :
  let (w', resp) := sample_serve (PostAlert "not json" None)
                      (env noon "msg_1") armed_world in
  resp = Failure 500 /\ sink_texts (calls w') = [] /\
  redis w' = redis armed_world.
Proof.
  assert (Hno : forall data, json_loads "not json" <> Some (JObj data))
    by (intros data H; discriminate H).
  apply (verified_alert_that_is_no_object_fails_without_dispatch
           repr_container json_loads cfg "not json" None (env noon "msg_1")
           armed_world eq_refl Hno).
Defined.

Lemma my_chat_alert_posts_one_message_witness :
  exists text,
    sink_texts (calls (fst (receive_alert repr_container
                              (json_loads_of "{c1}" (JObj (alert_data "my_chat")))
                              cfg "{c1}" (Some "v1=signed")
                              (env noon "msg_1") initial_world)))
      = [text] /\
    contains "Order 4471" text /\ contains "Kim" text /\
    contains "Where is my order?" text /\ contains "3분째" text.
Proof.
  destruct (my_chat_alert_posts_one_message repr_container
              (json_loads_of "{c1}" (JObj (alert_data "my_chat")))
              cfg "{c1}" (Some "v1=signed") (env noon "msg_1") initial_world
              (alert_data "my_chat") eq_refl eq_refl eq_refl)
    as (text & Hsink & _ & Hcontains).
  exists text. split; [exact Hsink | exact Hcontains].
Defined.

Lemma alert_text_reports_the_armed_timer_witness :
  exists cm alert_payload text,
    customer_message_fields (customer_event my_chat) = Some cm /\
    scheduled (calls (fst (sample_handle (customer_event my_chat)
                             (env noon "msg_1") initial_world)))
      = [(alert_payload, 180)] /\
    sink_texts (calls (fst (receive_alert repr_container
                              (json_loads_of "{c1}" alert_payload)
                              cfg "{c1}" (Some "v1=signed")
                              (env noon "msg_1") initial_world)))
      = [text] /\
    contains "Order 4471" text /\ contains "Kim" text /\
    contains "Where is my order?" text /\ contains "3분째" text.
Proof.
  eexists. eexists.
  destruct (alert_text_reports_the_armed_timer repr_container
              (json_loads_of "{c1}" _) cfg
              (customer_event my_chat) _ (env noon "msg_1") initial_world
              _ 180 "{c1}" (Some "v1=signed") (env noon "msg_1") initial_world
              eq_refl eq_refl eq_refl eq_refl)
    as (text & Hsink & Hcontains).
  exists text. split; [reflexivity|]. split; [reflexivity|].
  split; [exact Hsink | exact Hcontains].
Defined.

Lemma reply_cancels_the_armed_timer_witness :
  (let w1 := fst (sample_handle (customer_event unassigned_chat)
                    (env noon "msg_1") initial_world) in
   let w2 := fst (channel_webhook repr_container cfg
                    (member_event unassigned_chat) env_cancel_raises w1) in
   redis w2 !! "timer:c1" = None /\ cancelled (calls w2) = ["msg_1"]) /\
  (let w1 := fst (sample_handle (customer_event my_chat)
                    (env noon "msg_3") initial_world) in
   let w2 := fst (channel_webhook repr_container cfg
                    (assigned_event my_chat) (env noon "msg_4") w1) in
   redis w2 !! "timer:c1" = None /\ cancelled (calls w2) = ["msg_3"]).
Proof.
  assert (H1 : "msg_1" <> "") by discriminate.
  assert (H3 : "msg_3" <> "") by discriminate.
  split.
  - apply (reply_cancels_the_armed_timer repr_container cfg
             (customer_event unassigned_chat) _ (env noon "msg_1")
             initial_world _ 300 "msg_1" (member_event unassigned_chat)
             env_cancel_raises eq_refl eq_refl eq_refl H1 eq_refl eq_refl).
  - apply (reply_cancels_the_armed_timer repr_container cfg
             (customer_event my_chat) _ (env noon "msg_3")
             initial_world _ 180 "msg_3" (assigned_event my_chat)
             (env noon "msg_4") eq_refl eq_refl eq_refl H3 eq_refl eq_refl).
Defined.

